(** * Rhum: the plan builder of [mod.ts]

    A shallow embedding of class [RhumRunner] (mod.ts): the plan document
    [IPlan], the registration cursor kept in the runner's protected fields,
    the registration methods and the display-name formatter.  Methods are
    state transformers over the runner object; a JavaScript exception is an
    error result that still carries the (possibly mutated) object.  A
    string is its sequence of code units, one character each. *)

From Stdlib Require Import String Ascii List Bool Arith NArith Lia.
Import ListNotations.
Open Scope string_scope.

(** ** Values *)

(** A JavaScript function object, identified by its reference.  Two
    callbacks are reference-equal exactly when they are the same [Fn]. *)
Inductive Fn : Type :=
| FnRef (addr : nat).

(** The only exception the builder itself can raise: dereferencing
    [undefined]. *)
Inductive Error : Type :=
| TypeError.

(** One element of [cases] in [IPlan]. *)
Record Case : Type := mkCase {
  name : string;
  new_name : string;
  testFn : Fn
}.

(** The value type of [IPlan.suites]: [cases?] is optional in the
    interface, the four hooks are [Function | null]. *)
Record Suite : Type := mkSuite {
  cases : option (list Case);
  after_all_case_hook : option Fn;
  after_each_case_hook : option Fn;
  before_all_case_hook : option Fn;
  before_each_case_hook : option Fn
}.

(** [IPlan].  The [suites] object is the list of its bindings, one per
    key, in the order in which the keys were first assigned: a new key goes
    to the end, assigning to a present key keeps its place.  This is
    what a read [suites[key]] sees.  The order in which the object
    enumerates its keys is another matter, see [own_keys]: names that are
    array indices come first, in numeric order, and an assignment to
    [__proto__] sets the prototype, which a read of that key gives back but
    which is no key of the object.  Properties inherited from
    [Object.prototype] are not modelled; every key the runner reads is
    either the empty string or a key it has assigned. *)
Record IPlan : Type := mkPlan {
  suites : list (string * Suite);
  after_all_suite_hook : option Fn;
  after_each_suite_hook : option Fn;
  before_all_suite_hook : option Fn;
  before_each_suite_hook : option Fn
}.

(** The protected fields of [RhumRunner]. *)
Record RhumRunner : Type := mkRunner {
  passed_in_test_plan : string;
  passed_in_test_suite : string;
  test_plan_in_progress : string;
  test_suite_in_progress : string;
  plan : IPlan
}.

(** The field initialisers of the class. *)
Definition new_RhumRunner : RhumRunner :=
  {| passed_in_test_plan := "";
     passed_in_test_suite := "";
     test_plan_in_progress := "";
     test_suite_in_progress := "";
     plan := {| suites := [];
                after_all_suite_hook := None;
                after_each_suite_hook := None;
                before_all_suite_hook := None;
                before_each_suite_hook := None |} |}.

Definition extraChars : nat := 10.

(** ** The [suites] object *)

(** [suites[key]] as a read: [None] is [undefined]. *)
Fixpoint get_suite (key : string) (o : list (string * Suite)) : option Suite :=
  match o with
  | [] => None
  | (k, v) :: rest => if String.eqb k key then Some v else get_suite key rest
  end.

(** [suites[key] = v], on the list of bindings. *)
Fixpoint set_suite (key : string) (v : Suite) (o : list (string * Suite))
  : list (string * Suite) :=
  match o with
  | [] => [(key, v)]
  | (k, w) :: rest =>
      if String.eqb k key then (k, v) :: rest
      else (k, w) :: set_suite key v rest
  end.

(** ** Field assignments *)

Definition with_suites (o : list (string * Suite)) (p : IPlan) : IPlan :=
  {| suites := o;
     after_all_suite_hook := after_all_suite_hook p;
     after_each_suite_hook := after_each_suite_hook p;
     before_all_suite_hook := before_all_suite_hook p;
     before_each_suite_hook := before_each_suite_hook p |}.

Definition with_plan (p : IPlan) (r : RhumRunner) : RhumRunner :=
  {| passed_in_test_plan := passed_in_test_plan r;
     passed_in_test_suite := passed_in_test_suite r;
     test_plan_in_progress := test_plan_in_progress r;
     test_suite_in_progress := test_suite_in_progress r;
     plan := p |}.

Definition with_passed_in_test_plan (s : string) (r : RhumRunner) : RhumRunner :=
  {| passed_in_test_plan := s;
     passed_in_test_suite := passed_in_test_suite r;
     test_plan_in_progress := test_plan_in_progress r;
     test_suite_in_progress := test_suite_in_progress r;
     plan := plan r |}.

Definition with_passed_in_test_suite (s : string) (r : RhumRunner) : RhumRunner :=
  {| passed_in_test_plan := passed_in_test_plan r;
     passed_in_test_suite := s;
     test_plan_in_progress := test_plan_in_progress r;
     test_suite_in_progress := test_suite_in_progress r;
     plan := plan r |}.

Definition with_test_plan_in_progress (s : string) (r : RhumRunner) : RhumRunner :=
  {| passed_in_test_plan := passed_in_test_plan r;
     passed_in_test_suite := passed_in_test_suite r;
     test_plan_in_progress := s;
     test_suite_in_progress := test_suite_in_progress r;
     plan := plan r |}.

Definition with_test_suite_in_progress (s : string) (r : RhumRunner) : RhumRunner :=
  {| passed_in_test_plan := passed_in_test_plan r;
     passed_in_test_suite := passed_in_test_suite r;
     test_plan_in_progress := test_plan_in_progress r;
     test_suite_in_progress := s;
     plan := plan r |}.

(** The four lifecycle points a hook can be bound to. *)
Inductive HookKind : Type :=
| BeforeEach
| AfterEach
| AfterAll
| BeforeAll.

(** The slot of a suite record for a lifecycle point. *)
Definition case_hook (k : HookKind) (s : Suite) : option Fn :=
  match k with
  | BeforeEach => before_each_case_hook s
  | AfterEach => after_each_case_hook s
  | AfterAll => after_all_case_hook s
  | BeforeAll => before_all_case_hook s
  end.

(** The slot of the plan document for a lifecycle point. *)
Definition suite_hook (k : HookKind) (p : IPlan) : option Fn :=
  match k with
  | BeforeEach => before_each_suite_hook p
  | AfterEach => after_each_suite_hook p
  | AfterAll => after_all_suite_hook p
  | BeforeAll => before_all_suite_hook p
  end.

Definition set_case_hook (k : HookKind) (cb : option Fn) (s : Suite) : Suite :=
  {| cases := cases s;
     after_all_case_hook :=
       match k with AfterAll => cb | _ => after_all_case_hook s end;
     after_each_case_hook :=
       match k with AfterEach => cb | _ => after_each_case_hook s end;
     before_all_case_hook :=
       match k with BeforeAll => cb | _ => before_all_case_hook s end;
     before_each_case_hook :=
       match k with BeforeEach => cb | _ => before_each_case_hook s end |}.

Definition set_suite_hook (k : HookKind) (cb : option Fn) (p : IPlan) : IPlan :=
  {| suites := suites p;
     after_all_suite_hook :=
       match k with AfterAll => cb | _ => after_all_suite_hook p end;
     after_each_suite_hook :=
       match k with AfterEach => cb | _ => after_each_suite_hook p end;
     before_all_suite_hook :=
       match k with BeforeAll => cb | _ => before_all_suite_hook p end;
     before_each_suite_hook :=
       match k with BeforeEach => cb | _ => before_each_suite_hook p end |}.

Definition set_cases (cs : option (list Case)) (s : Suite) : Suite :=
  {| cases := cs;
     after_all_case_hook := after_all_case_hook s;
     after_each_case_hook := after_each_case_hook s;
     before_all_case_hook := before_all_case_hook s;
     before_each_case_hook := before_each_case_hook s |}.

(** ** Methods as state transformers *)

(** A method call on the runner: it returns or throws, and in both cases
    leaves an object behind. *)
Definition M (A : Type) : Type := RhumRunner -> (Error + A) * RhumRunner.

Definition ret {A : Type} (a : A) : M A := fun r => (inr a, r).

Definition throw {A : Type} (e : Error) : M A := fun r => (inl e, r).

Definition bind {A B : Type} (m : M A) (f : A -> M B) : M B :=
  fun r =>
    match m r with
    | (inl e, r') => (inl e, r')
    | (inr a, r') => f a r'
    end.

Definition get : M RhumRunner := fun r => (inr r, r).

Definition modify (f : RhumRunner -> RhumRunner) : M unit :=
  fun r => (inr tt, f r).

Notation "x <- m ;; k" := (bind m (fun x => k))
  (at level 61, m at next level, right associativity).
Notation "m ;;; k" := (bind m (fun _ => k))
  (at level 61, right associativity).

(** A string used as a condition: the empty string is falsy. *)
Definition truthy (s : string) : bool := negb (String.eqb s "").

(** [s.repeat(n)]. *)
Fixpoint repeat_string (s : string) (n : nat) : string :=
  match n with
  | O => ""
  | S n' => s ++ repeat_string s n'
  end.

Definition backspace : string := String (ascii_of_nat 8) "".
Definition newline : string := String (ascii_of_nat 10) "".

(** [this.plan.suites[key]] read for a member access: reading a member of
    [undefined] throws. *)
Definition deref_suite (key : string) : M Suite :=
  fun r =>
    match get_suite key (suites (plan r)) with
    | Some s => (inr s, r)
    | None => (inl TypeError, r)
    end.

(** [this.plan.suites[this.passed_in_test_suite].<slot> = cb]. *)
Definition assign_case_hook (k : HookKind) (cb : Fn) : M unit :=
  r <- get ;;
  s <- deref_suite (passed_in_test_suite r) ;;
  modify (fun r =>
    with_plan
      (with_suites
         (set_suite (passed_in_test_suite r) (set_case_hook k (Some cb) s)
            (suites (plan r)))
         (plan r)) r).

(** [this.plan.<slot> = cb]. *)
Definition assign_suite_hook (k : HookKind) (cb : Fn) : M unit :=
  modify (fun r => with_plan (set_suite_hook k (Some cb) (plan r)) r).

Definition beforeEach (cb : Fn) : M unit :=
  r <- get ;;
  if truthy (passed_in_test_plan r) && truthy (passed_in_test_suite r) then
    assign_case_hook BeforeEach cb
  else if truthy (passed_in_test_plan r) && negb (truthy (passed_in_test_suite r)) then
    assign_suite_hook BeforeEach cb
  else ret tt.

Definition afterEach (cb : Fn) : M unit :=
  r <- get ;;
  if truthy (passed_in_test_plan r) && truthy (passed_in_test_suite r) then
    assign_case_hook AfterEach cb
  else if truthy (passed_in_test_plan r) && negb (truthy (passed_in_test_suite r)) then
    assign_suite_hook AfterEach cb
  else ret tt.

Definition afterAll (cb : Fn) : M unit :=
  r <- get ;;
  if truthy (passed_in_test_plan r) && truthy (passed_in_test_suite r) then
    assign_case_hook AfterAll cb
  else if truthy (passed_in_test_plan r) && negb (truthy (passed_in_test_suite r)) then
    assign_suite_hook AfterAll cb
  else ret tt.

Definition beforeAll (cb : Fn) : M unit :=
  r <- get ;;
  if truthy (passed_in_test_plan r) && truthy (passed_in_test_suite r) then
    assign_case_hook BeforeAll cb
  else if truthy (passed_in_test_plan r) && negb (truthy (passed_in_test_suite r)) then
    assign_suite_hook BeforeAll cb
  else ret tt.

(** The hook-registration method for a lifecycle point. *)
Definition register_hook (k : HookKind) (cb : Fn) : M unit :=
  match k with
  | BeforeEach => beforeEach cb
  | AfterEach => afterEach cb
  | AfterAll => afterAll cb
  | BeforeAll => beforeAll cb
  end.

Definition only (cb : Fn) : M unit := ret tt.

Definition skip (name : string) (cb : Fn) : M unit := ret tt.

Definition formatTestCaseName (name : string) : M string :=
  r <- get ;;
  if negb (String.eqb (test_plan_in_progress r) (passed_in_test_plan r)) then
    modify (with_test_plan_in_progress (passed_in_test_plan r)) ;;;
    modify (with_test_suite_in_progress (passed_in_test_suite r)) ;;;
    ret (repeat_string backspace (String.length name + extraChars) ++
         repeat_string " " (String.length name + extraChars) ++
         newline ++ passed_in_test_plan r ++
         newline ++ "    " ++ passed_in_test_suite r ++
         newline ++ "        " ++ name ++ " ... ")
  else if negb (String.eqb (test_suite_in_progress r) (passed_in_test_suite r)) then
    modify (with_test_suite_in_progress (passed_in_test_suite r)) ;;;
    ret (repeat_string backspace (String.length name + extraChars) ++
         "    " ++ passed_in_test_suite r ++
         repeat_string " " (String.length name + extraChars) ++
         newline ++ "        " ++ name ++ " ... ")
  else
    ret (repeat_string backspace (String.length name + extraChars) ++
         "        " ++ name ++ " ... ").

(** [testCase]: the callee [suites[...].cases.push] is evaluated before
    the argument, so a missing record or a missing [cases] array throws
    before [formatTestCaseName] runs; [push] then extends, in place, the
    array that was read, which [formatTestCaseName] does not touch. *)
Definition testCase (name : string) (testFn : Fn) : M unit :=
  r <- get ;;
  s <- deref_suite (passed_in_test_suite r) ;;
  match cases s with
  | None => throw TypeError
  | Some cs =>
      new_name <- formatTestCaseName name ;;
      modify (fun r' =>
        with_plan
          (with_suites
             (set_suite (passed_in_test_suite r)
                (set_cases (Some (cs ++ [mkCase name new_name testFn])%list) s)
                (suites (plan r')))
             (plan r')) r')
  end.

Definition testPlan (name : string) (testSuites : M unit) : M unit :=
  modify (with_passed_in_test_suite "") ;;;
  modify (with_passed_in_test_plan name) ;;;
  testSuites.

Definition testSuite (name : string) (testCases : M unit) : M unit :=
  modify (with_passed_in_test_suite name) ;;;
  modify (fun r =>
    with_plan
      (with_suites
         (set_suite name
            {| cases := Some [];
               after_all_case_hook := None;
               after_each_case_hook := None;
               before_all_case_hook := None;
               before_each_case_hook := None |}
            (suites (plan r)))
         (plan r)) r) ;;;
  testCases.

(** ** Registration programs *)

(** What a plan or suite body does with the runner: a sequence of calls of
    its public registration methods, bodies nested as they are written. *)
Inductive Script : Type :=
| Done
| Seq (first then_ : Script)
| CallTestPlan (name : string) (testSuites : Script)
| CallTestSuite (name : string) (testCases : Script)
| CallTestCase (name : string) (testFn : Fn)
| CallHook (k : HookKind) (cb : Fn)
| CallOnly (cb : Fn)
| CallSkip (name : string) (cb : Fn).

Fixpoint exec (s : Script) : M unit :=
  match s with
  | Done => ret tt
  | Seq a b => exec a ;;; exec b
  | CallTestPlan name testSuites => testPlan name (exec testSuites)
  | CallTestSuite name testCases => testSuite name (exec testCases)
  | CallTestCase name testFn => testCase name testFn
  | CallHook k cb => register_hook k cb
  | CallOnly cb => only cb
  | CallSkip name cb => skip name cb
  end.


(** ** Observations on the runner *)

(** The slot a lifecycle point has in the suite record stored under a
    name; [None] when there is no such record or the slot is null. *)
Definition case_hook_of (k : HookKind) (key : string) (r : RhumRunner) : option Fn :=
  match get_suite key (suites (plan r)) with
  | Some s => case_hook k s
  | None => None
  end.

(** The record under a name exists and has its [cases] array. *)
Definition has_cases (key : string) (o : list (string * Suite)) : bool :=
  match get_suite key o with
  | Some s => match cases s with Some _ => true | None => false end
  | None => false
  end.

(** The cursor's suite scope, when set, names a record with a [cases]
    array. *)
Definition cursor_bound (r : RhumRunner) : bool :=
  negb (truthy (passed_in_test_suite r))
  || has_cases (passed_in_test_suite r) (suites (plan r)).

(** A call returned normally. *)
Definition returns {A : Type} (res : (Error + A) * RhumRunner) : bool :=
  match fst res with
  | inr _ => true
  | inl _ => false
  end.

(** The record [testSuite] stores. *)
Definition fresh_suite : Suite :=
  {| cases := Some [];
     after_all_case_hook := None;
     after_each_case_hook := None;
     before_all_case_hook := None;
     before_each_case_hook := None |}.

(** The plan document with nothing registered. *)
Definition empty_plan : IPlan :=
  {| suites := [];
     after_all_suite_hook := None;
     after_each_suite_hook := None;
     before_all_suite_hook := None;
     before_each_suite_hook := None |}.

(** ** The display-name formatter, by layout *)

(** The three shapes [formatTestCaseName] can give a display name. *)
Inductive Layout : Type :=
| WithPlanHeader
| WithSuiteHeader
| CaseOnly.

Definition Layout_eqb (a b : Layout) : bool :=
  match a, b with
  | WithPlanHeader, WithPlanHeader => true
  | WithSuiteHeader, WithSuiteHeader => true
  | CaseOnly, CaseOnly => true
  | _, _ => false
  end.

(** The branch [formatTestCaseName] takes in a state. *)
Definition layout (r : RhumRunner) : Layout :=
  if negb (String.eqb (test_plan_in_progress r) (passed_in_test_plan r)) then
    WithPlanHeader
  else if negb (String.eqb (test_suite_in_progress r) (passed_in_test_suite r)) then
    WithSuiteHeader
  else CaseOnly.

(** The text of each shape: the plan line and the suite line appear in the
    first, the suite line alone in the second. *)
Definition render (l : Layout) (p s n : string) : string :=
  match l with
  | WithPlanHeader =>
      repeat_string backspace (String.length n + extraChars) ++
      repeat_string " " (String.length n + extraChars) ++
      newline ++ p ++ newline ++ "    " ++ s ++
      newline ++ "        " ++ n ++ " ... "
  | WithSuiteHeader =>
      repeat_string backspace (String.length n + extraChars) ++
      "    " ++ s ++
      repeat_string " " (String.length n + extraChars) ++
      newline ++ "        " ++ n ++ " ... "
  | CaseOnly =>
      repeat_string backspace (String.length n + extraChars) ++
      "        " ++ n ++ " ... "
  end.

(** One [testCase] registration as the formatter sees it: the plan and
    suite the cursor points at, and the case name. *)
Record Registration : Type := mkRegistration {
  at_plan : string;
  at_suite : string;
  case_name : string
}.

(** The cursor as [testPlan] and [testSuite] leave it for a registration. *)
Definition enter (g : Registration) (r : RhumRunner) : RhumRunner :=
  with_passed_in_test_suite (at_suite g)
    (with_passed_in_test_plan (at_plan g) r).

(** The display names the formatter gives a sequence of registrations. *)
Fixpoint format_all (gs : list Registration) (r : RhumRunner)
  : list (Registration * string) :=
  match gs with
  | [] => []
  | g :: gs' =>
      match formatTestCaseName (case_name g) (enter g r) with
      | (inr out, r') => (g, out) :: format_all gs' r'
      | (inl _, _) => []
      end
  end.

(** A display name carries the plan line. *)
Definition shows_plan_header (x : Registration * string) : bool :=
  String.eqb (snd x)
    (render WithPlanHeader (at_plan (fst x)) (at_suite (fst x)) (case_name (fst x))).

(** A display name carries the suite line. *)
Definition shows_suite_header (x : Registration * string) : bool :=
  shows_plan_header x
  || String.eqb (snd x)
       (render WithSuiteHeader (at_plan (fst x)) (at_suite (fst x)) (case_name (fst x))).

(** How many display names carry the header of plan [p]. *)
Definition plan_headers (p : string) (outs : list (Registration * string)) : nat :=
  List.length
    (filter (fun x => String.eqb (at_plan (fst x)) p && shows_plan_header x) outs).

(** How many display names carry the header of suite [s] of plan [p]. *)
Definition suite_headers (p s : string) (outs : list (Registration * string)) : nat :=
  List.length
    (filter (fun x => String.eqb (at_plan (fst x)) p
                      && String.eqb (at_suite (fst x)) s
                      && shows_suite_header x) outs).

Definition pair_eqb (a b : string * string) : bool :=
  String.eqb (fst a) (fst b) && String.eqb (snd a) (snd b).

Section Changes.

Variable A : Type.
Variable eqb : A -> A -> bool.

(** Once the sequence leaves a value it does not come back to it;
    [prev] is the value before the first element. *)
Fixpoint grouped_from (prev : A) (l : list A) : bool :=
  match l with
  | [] => true
  | x :: l' =>
      (eqb prev x || negb (existsb (eqb prev) l)) && grouped_from x l'
  end.

(** How many times the sequence moves to [a] from a different value. *)
Fixpoint changes_to (a prev : A) (l : list A) : nat :=
  match l with
  | [] => 0
  | x :: l' =>
      (if eqb x a && negb (eqb prev x) then 1 else 0) + changes_to a x l'
  end.

End Changes.

Arguments grouped_from {A} eqb prev l.
Arguments changes_to {A} eqb a prev l.

(** ** The keys the [suites] object enumerates *)

Definition is_digit (c : ascii) : bool :=
  Nat.leb 48 (nat_of_ascii c) && Nat.leb (nat_of_ascii c) 57.

Fixpoint all_digits (s : string) : bool :=
  match s with
  | EmptyString => true
  | String c s' => is_digit c && all_digits s'
  end.

Fixpoint digits_value (acc : N) (s : string) : N :=
  match s with
  | EmptyString => acc
  | String c s' => digits_value (10 * acc + (N_of_ascii c - 48))%N s'
  end.

Definition index_value (s : string) : N := digits_value 0 s.

(** A property key that is an array index: the decimal numeral, without
    sign or leading zero, of an integer below [2^32 - 1]. *)
Definition is_array_index (s : string) : bool :=
  match s with
  | EmptyString => false
  | String c rest =>
      all_digits s
      && (negb (Ascii.eqb c "0"%char) || String.eqb rest "")
      && N.leb (index_value s) 4294967294
  end.

(** A key that is enumerated in the order of its first assignment. *)
Definition plain_name (k : string) : bool :=
  negb (is_array_index k) && negb (String.eqb k "__proto__").

Fixpoint insert_index (k : string) (l : list string) : list string :=
  match l with
  | [] => [k]
  | h :: t =>
      if N.leb (index_value k) (index_value h) then k :: l
      else h :: insert_index k t
  end.

Definition sort_indices (l : list string) : list string :=
  fold_right insert_index [] l.

(** The order in which an ordinary object enumerates the keys it was
    assigned in the given order: array indices ascending, then the other
    names as assigned; [__proto__] is not among them. *)
Definition enumerate (ks : list string) : list string :=
  (sort_indices (filter is_array_index ks) ++ filter plain_name ks)%list.

(** [Object.keys(suites)]. *)
Definition own_keys (o : list (string * Suite)) : list string :=
  enumerate (map fst o).

(** ** Shapes of registration programs *)

(** A suite body that registers the given cases, in order. *)
Fixpoint cases_script (l : list (string * Fn)) : Script :=
  match l with
  | [] => Done
  | (n, f) :: l' => Seq (CallTestCase n f) (cases_script l')
  end.


(** The record the cursor's suite scope names is in place, with its
    [cases] array. *)
Definition suite_open (r : RhumRunner) : bool :=
  has_cases (passed_in_test_suite r) (suites (plan r)).

(** Whether a [testSuite] call is known to have set the cursor by the end
    of a program, given whether one had before it: [testPlan] clears the
    suite scope, [testSuite] sets it, nothing else moves it. *)
Fixpoint opens (b : bool) (s : Script) : bool :=
  match s with
  | Seq a c => opens (opens b a) c
  | CallTestPlan _ body => opens false body
  | CallTestSuite _ body => opens true body
  | _ => b
  end.

(** Every [testCase] call of the program comes after a [testSuite] call
    with no [testPlan] call in between. *)
Fixpoint well_scoped (b : bool) (s : Script) : bool :=
  match s with
  | Seq a c => well_scoped b a && well_scoped (opens b a) c
  | CallTestPlan _ body => well_scoped false body
  | CallTestSuite _ body => well_scoped true body
  | CallTestCase _ _ => b
  | _ => true
  end.

(** The program opens no plan. *)
Fixpoint no_plan_call (s : Script) : bool :=
  match s with
  | Seq a c => no_plan_call a && no_plan_call c
  | CallTestPlan _ _ => false
  | CallTestSuite _ body => no_plan_call body
  | _ => true
  end.

(** * Properties *)

(** ** The [suites] object *)

Lemma get_suite_set_same (key : string) (v : Suite) (o : list (string * Suite)) :
  get_suite key (set_suite key v o) = Some v.
Proof.
  induction o as [|[k w] rest IH]; simpl.
  - now rewrite String.eqb_refl.
  - destruct (String.eqb k key) eqn:E; simpl; rewrite E; auto.
Qed.

Lemma get_suite_set_other (key key' : string) (v : Suite) (o : list (string * Suite)) :
  key <> key' ->
  get_suite key' (set_suite key v o) = get_suite key' o.
Proof.
  intros Hne.
  induction o as [|[k w] rest IH]; simpl.
  - destruct (String.eqb_spec key key'); [contradiction | reflexivity].
  - destruct (String.eqb_spec k key) as [->|Hk]; simpl.
    + destruct (String.eqb_spec key key'); [contradiction | reflexivity].
    + destruct (String.eqb k key'); auto.
Qed.

Lemma set_suite_twice (key : string) (v w : Suite) (o : list (string * Suite)) :
  set_suite key w (set_suite key v o) = set_suite key w o.
Proof.
  induction o as [|[k u] rest IH]; simpl.
  - now rewrite String.eqb_refl.
  - destruct (String.eqb k key) eqn:E; simpl; rewrite E; congruence.
Qed.

Lemma set_suite_keeps_keys (key : string) (v : Suite) (o : list (string * Suite)) :
  get_suite key o <> None ->
  map fst (set_suite key v o) = map fst o.
Proof.
  induction o as [|[k w] rest IH]; simpl; [congruence|].
  destruct (String.eqb k key); simpl; [reflexivity|].
  intros H. now rewrite IH.
Qed.

Lemma set_case_hook_twice (k : HookKind) (a b : option Fn) (s : Suite) :
  set_case_hook k b (set_case_hook k a s) = set_case_hook k b s.
Proof. destruct k; reflexivity. Qed.

Lemma set_suite_hook_twice (k : HookKind) (a b : option Fn) (p : IPlan) :
  set_suite_hook k b (set_suite_hook k a p) = set_suite_hook k b p.
Proof. destruct k; reflexivity. Qed.

Lemma case_hook_set (k : HookKind) (cb : option Fn) (s : Suite) :
  case_hook k (set_case_hook k cb s) = cb.
Proof. destruct k; reflexivity. Qed.

Lemma suite_hook_set (k : HookKind) (cb : option Fn) (p : IPlan) :
  suite_hook k (set_suite_hook k cb p) = cb.
Proof. destruct k; reflexivity. Qed.

Lemma truthy_false (s : string) : truthy s = false <-> s = "".
Proof.
  unfold truthy. destruct (String.eqb_spec s ""); simpl; split; congruence.
Qed.

Lemma truthy_true (s : string) : truthy s = true <-> s <> "".
Proof.
  unfold truthy. destruct (String.eqb_spec s ""); simpl; split; congruence.
Qed.

(** ** The hook-registration methods, by scope *)

(** The four methods share one body up to the slot they assign. *)
Lemma register_hook_unfold (k : HookKind) (cb : Fn) (r : RhumRunner) :
  register_hook k cb r =
  if truthy (passed_in_test_plan r) && truthy (passed_in_test_suite r) then
    assign_case_hook k cb r
  else if truthy (passed_in_test_plan r) && negb (truthy (passed_in_test_suite r)) then
    assign_suite_hook k cb r
  else (inr tt, r).
Proof.
  destruct k; unfold register_hook, beforeEach, afterEach, afterAll, beforeAll,
    bind, get, ret;
  destruct (truthy (passed_in_test_plan r)), (truthy (passed_in_test_suite r));
  reflexivity.
Qed.

Lemma assign_case_hook_present (k : HookKind) (cb : Fn) (r : RhumRunner) (s : Suite) :
  get_suite (passed_in_test_suite r) (suites (plan r)) = Some s ->
  assign_case_hook k cb r =
  (inr tt,
   with_plan
     (with_suites
        (set_suite (passed_in_test_suite r) (set_case_hook k (Some cb) s)
           (suites (plan r)))
        (plan r)) r).
Proof.
  intros H. unfold assign_case_hook, bind, get, deref_suite, modify.
  now rewrite H.
Qed.

Lemma assign_case_hook_missing (k : HookKind) (cb : Fn) (r : RhumRunner) :
  get_suite (passed_in_test_suite r) (suites (plan r)) = None ->
  assign_case_hook k cb r = (inl TypeError, r).
Proof.
  intros H. unfold assign_case_hook, bind, get, deref_suite, modify.
  now rewrite H.
Qed.

(** In plan scope the call assigns the plan-level slot and nothing else. *)
Lemma register_hook_plan_scope (k : HookKind) (cb : Fn) (r : RhumRunner) :
  passed_in_test_plan r <> "" ->
  passed_in_test_suite r = "" ->
  register_hook k cb r =
  (inr tt, with_plan (set_suite_hook k (Some cb) (plan r)) r).
Proof.
  intros Hp Hs. rewrite register_hook_unfold.
  apply truthy_true in Hp. apply truthy_false in Hs.
  rewrite Hp, Hs. reflexivity.
Qed.

(** In suite scope the call assigns the slot of the record under the
    cursor's suite name and nothing else. *)
Lemma register_hook_suite_scope (k : HookKind) (cb : Fn) (r : RhumRunner) (s : Suite) :
  passed_in_test_plan r <> "" ->
  passed_in_test_suite r <> "" ->
  get_suite (passed_in_test_suite r) (suites (plan r)) = Some s ->
  register_hook k cb r =
  (inr tt,
   with_plan
     (with_suites
        (set_suite (passed_in_test_suite r) (set_case_hook k (Some cb) s)
           (suites (plan r)))
        (plan r)) r).
Proof.
  intros Hp Hs Hg. rewrite register_hook_unfold.
  apply truthy_true in Hp. apply truthy_true in Hs.
  rewrite Hp, Hs. simpl. now apply assign_case_hook_present.
Qed.

Lemma register_hook_no_plan (k : HookKind) (cb : Fn) (r : RhumRunner) :
  passed_in_test_plan r = "" ->
  register_hook k cb r = (inr tt, r).
Proof.
  intros Hp. rewrite register_hook_unfold.
  apply truthy_false in Hp. rewrite Hp. reflexivity.
Qed.

(** ** The formatter *)

Lemma formatTestCaseName_layout (n : string) (r : RhumRunner) :
  formatTestCaseName n r =
  (inr (render (layout r) (passed_in_test_plan r) (passed_in_test_suite r) n),
   with_test_suite_in_progress (passed_in_test_suite r)
     (with_test_plan_in_progress (passed_in_test_plan r) r)).
Proof.
  unfold formatTestCaseName, layout, bind, get, modify, ret.
  destruct r as [pp ps tp ts pl]; simpl.
  destruct (String.eqb_spec tp pp) as [->|]; simpl; [|reflexivity].
  destruct (String.eqb_spec ts ps) as [->|]; simpl; reflexivity.
Qed.

Lemma formatTestCaseName_plan (n : string) (r : RhumRunner) :
  plan (snd (formatTestCaseName n r)) = plan r
  /\ passed_in_test_plan (snd (formatTestCaseName n r)) = passed_in_test_plan r
  /\ passed_in_test_suite (snd (formatTestCaseName n r)) = passed_in_test_suite r.
Proof. rewrite formatTestCaseName_layout. simpl. auto. Qed.

(** ** [testCase] *)

Lemma testCase_missing (n : string) (f : Fn) (r : RhumRunner) :
  get_suite (passed_in_test_suite r) (suites (plan r)) = None ->
  testCase n f r = (inl TypeError, r).
Proof.
  intros H. unfold testCase, bind, get, deref_suite. now rewrite H.
Qed.

Lemma testCase_present (n : string) (f : Fn) (r : RhumRunner) (s : Suite) (cs : list Case) :
  get_suite (passed_in_test_suite r) (suites (plan r)) = Some s ->
  cases s = Some cs ->
  testCase n f r =
  (inr tt,
   let r' := with_test_suite_in_progress (passed_in_test_suite r)
               (with_test_plan_in_progress (passed_in_test_plan r) r) in
   with_plan
     (with_suites
        (set_suite (passed_in_test_suite r)
           (set_cases
              (Some (cs ++ [mkCase n
                              (render (layout r) (passed_in_test_plan r)
                                 (passed_in_test_suite r) n) f])%list) s)
           (suites (plan r)))
        (plan r)) r').
Proof.
  intros Hg Hc. unfold testCase, bind, get, deref_suite. rewrite Hg, Hc.
  rewrite formatTestCaseName_layout. reflexivity.
Qed.

(** ** [testPlan] and the plan document *)

(** C2, as stated, fails: a second [testPlan] runs its body on the
    document the first one built.  After plan P1 has registered a
    plan-level beforeAll hook and suite S1 with one case, the body of
    [testPlan "P2"] still finds the hook and the suite. *)
Lemma testPlan_carries_document_over :
  let r1 := snd (exec (CallTestPlan "P1"
                         (Seq (CallHook BeforeAll (FnRef 1))
                              (CallTestSuite "S1" (CallTestCase "c1" (FnRef 2)))))
                   new_RhumRunner) in
  let seen := snd (testPlan "P2" (ret tt) r1) in
  returns (testPlan "P2" (ret tt) r1) = true
  /\ plan seen <> empty_plan
  /\ before_all_suite_hook (plan seen) = Some (FnRef 1)
  /\ has_cases "S1" (suites (plan seen)) = true.
Proof.
  vm_compute. repeat split; try reflexivity. discriminate.
Qed.

(** C2, amended: [testPlan name body] clears the cursor's suite scope,
    sets the cursor's plan scope to [name] and runs [body] on the runner so
    changed; the plan document the body starts from is the one the runner
    held before the call, suites and plan-level hooks included. *)
Theorem testPlan_resets_cursor_only (name : string) (body : M unit) (r : RhumRunner) :
  let r0 := with_passed_in_test_plan name (with_passed_in_test_suite "" r) in
  testPlan name body r = body r0
  /\ passed_in_test_suite r0 = ""
  /\ passed_in_test_plan r0 = name
  /\ plan r0 = plan r
  /\ test_plan_in_progress r0 = test_plan_in_progress r
  /\ test_suite_in_progress r0 = test_suite_in_progress r.
Proof.
  simpl. repeat split.
Qed.

(** ** [testCase] outside a suite *)

(** C4, as stated, fails: with the cursor's suite scope empty, [testCase]
    returns normally and changes document and cursor when a suite has been
    registered under the empty name. *)
Lemma testCase_outside_suite_may_succeed :
  let r := snd (exec (CallTestPlan "P" (CallTestSuite "" Done)) new_RhumRunner) in
  passed_in_test_suite r = ""
  /\ fst (testCase "c" (FnRef 1) r) = inr tt
  /\ plan (snd (testCase "c" (FnRef 1) r)) <> plan r
  /\ test_plan_in_progress (snd (testCase "c" (FnRef 1) r))
     <> test_plan_in_progress r.
Proof.
  vm_compute. repeat split; discriminate.
Qed.

(** C4, amended: with the cursor's suite scope empty and no suite record
    stored under the empty name, [testCase] throws at once and leaves the
    whole runner, plan document and cursor, as it was. *)
Theorem testCase_outside_suite_throws (n : string) (f : Fn) (r : RhumRunner) :
  passed_in_test_suite r = "" ->
  get_suite "" (suites (plan r)) = None ->
  testCase n f r = (inl TypeError, r).
Proof.
  intros Hs Hg. apply testCase_missing. now rewrite Hs.
Qed.

Lemma testCase_outside_suite_throws_witness :
  testCase "c" (FnRef 1) (with_passed_in_test_plan "P" new_RhumRunner)
  = (inl TypeError, with_passed_in_test_plan "P" new_RhumRunner).
Proof.
  apply testCase_outside_suite_throws; reflexivity.
Defined.

(** ** [testSuite] on a registered name *)

(** C5: [testSuite name body] on a name the document already holds stores
    a fresh record under it (empty case list, four null hooks) in place of
    the old one, nothing of which is kept; it leaves every other record,
    the order of the names and the plan-level hooks alone, sets the
    cursor's suite scope, and runs [body] on that runner. *)
Theorem testSuite_replaces_record (n : string) (body : M unit) (r : RhumRunner) :
  get_suite n (suites (plan r)) <> None ->
  let r0 :=
    with_plan (with_suites (set_suite n fresh_suite (suites (plan r))) (plan r))
      (with_passed_in_test_suite n r) in
  testSuite n body r = body r0
  /\ get_suite n (suites (plan r0)) = Some fresh_suite
  /\ cases fresh_suite = Some []
  /\ (forall k, case_hook k fresh_suite = None)
  /\ (forall n', n <> n' ->
        get_suite n' (suites (plan r0)) = get_suite n' (suites (plan r)))
  /\ map fst (suites (plan r0)) = map fst (suites (plan r))
  /\ (forall k, suite_hook k (plan r0) = suite_hook k (plan r))
  /\ passed_in_test_suite r0 = n.
Proof.
  intros Hpresent r0. subst r0.
  split; [reflexivity|].
  split; [apply get_suite_set_same|].
  split; [reflexivity|].
  split; [now intros []|].
  split; [intros n' Hne; now apply get_suite_set_other|].
  split; [now apply set_suite_keeps_keys|].
  split; [now intros []|reflexivity].
Qed.

Lemma testSuite_replaces_record_witness :
  let r := snd (exec (CallTestPlan "P"
                        (CallTestSuite "S"
                           (Seq (CallHook BeforeEach (FnRef 1))
                                (CallTestCase "c" (FnRef 2)))))
                  new_RhumRunner) in
  case_hook_of BeforeEach "S" r = Some (FnRef 1)
  /\ get_suite "S" (suites (plan (snd (testSuite "S" (ret tt) r))))
     = Some fresh_suite.
Proof.
  intros r. split; [reflexivity|].
  destruct (testSuite_replaces_record "S" (ret tt) r) as (Hrun & Hget & _).
  - vm_compute. discriminate.
  - rewrite Hrun. exact Hget.
Defined.

(** ** Hooks with no plan scope *)

(** C6: with no plan scope active, each of the four hook-registration
    methods returns normally and leaves the runner, plan document and
    cursor, exactly as it was. *)
Theorem register_hook_without_plan_is_noop (k : HookKind) (cb : Fn) (r : RhumRunner) :
  passed_in_test_plan r = "" ->
  register_hook k cb r = (inr tt, r)
  /\ beforeAll cb r = (inr tt, r)
  /\ beforeEach cb r = (inr tt, r)
  /\ afterEach cb r = (inr tt, r)
  /\ afterAll cb r = (inr tt, r).
Proof.
  intros Hp. split; [now apply register_hook_no_plan|].
  repeat split.
  - now apply (register_hook_no_plan BeforeAll).
  - now apply (register_hook_no_plan BeforeEach).
  - now apply (register_hook_no_plan AfterEach).
  - now apply (register_hook_no_plan AfterAll).
Qed.

Lemma register_hook_without_plan_is_noop_witness :
  let r := with_passed_in_test_suite "S" new_RhumRunner in
  register_hook AfterAll (FnRef 7) r = (inr tt, r).
Proof.
  intros r.
  apply (register_hook_without_plan_is_noop AfterAll (FnRef 7) r).
  reflexivity.
Defined.

(** ** What a registration stores *)

(** C8: the builder stores the function object it is given.  [testCase]
    appends one case record whose [testFn] is the argument itself, and a
    hook-registration method leaves the argument itself in the slot it
    routes to, at plan level and at suite level alike. *)
Theorem registration_stores_the_argument (r : RhumRunner) (f : Fn) :
  (forall n s cs,
      get_suite (passed_in_test_suite r) (suites (plan r)) = Some s ->
      cases s = Some cs ->
      exists r' s' c,
        testCase n f r = (inr tt, r')
        /\ get_suite (passed_in_test_suite r) (suites (plan r')) = Some s'
        /\ cases s' = Some (cs ++ [c])%list
        /\ name c = n /\ testFn c = f)
  /\ (forall k,
        passed_in_test_plan r <> "" ->
        passed_in_test_suite r = "" ->
        suite_hook k (plan (snd (register_hook k f r))) = Some f)
  /\ (forall k s,
        passed_in_test_plan r <> "" ->
        passed_in_test_suite r <> "" ->
        get_suite (passed_in_test_suite r) (suites (plan r)) = Some s ->
        case_hook_of k (passed_in_test_suite r) (snd (register_hook k f r)) = Some f).
Proof.
  split; [|split].
  - intros n s cs Hg Hc.
    rewrite (testCase_present n f r s cs Hg Hc).
    eexists; eexists; eexists. split; [reflexivity|].
    cbn. rewrite get_suite_set_same. repeat split.
  - intros k Hp Hs. rewrite register_hook_plan_scope by assumption.
    cbn. apply suite_hook_set.
  - intros k s Hp Hs Hg.
    rewrite (register_hook_suite_scope k f r s) by assumption.
    unfold case_hook_of. cbn. rewrite get_suite_set_same.
    apply case_hook_set.
Qed.

Lemma registration_stores_the_argument_witness :
  let r := snd (exec (CallTestPlan "P" (CallTestSuite "S" Done)) new_RhumRunner) in
  let r0 := with_passed_in_test_suite "" r in
  (exists r' s' c,
      testCase "c" (FnRef 5) r = (inr tt, r')
      /\ get_suite "S" (suites (plan r')) = Some s'
      /\ cases s' = Some [c] /\ name c = "c" /\ testFn c = FnRef 5)
  /\ suite_hook AfterEach (plan (snd (register_hook AfterEach (FnRef 5) r0)))
     = Some (FnRef 5)
  /\ case_hook_of BeforeAll "S" (snd (register_hook BeforeAll (FnRef 5) r))
     = Some (FnRef 5).
Proof.
  intros r r0.
  split; [|split].
  - destruct (registration_stores_the_argument r (FnRef 5)) as (H & _ & _).
    apply (H "c" fresh_suite []); reflexivity.
  - destruct (registration_stores_the_argument r0 (FnRef 5)) as (_ & H & _).
    apply (H AfterEach); [discriminate | reflexivity].
  - destruct (registration_stores_the_argument r (FnRef 5)) as (_ & _ & H).
    apply (H BeforeAll fresh_suite); [discriminate | discriminate | reflexivity].
Defined.

(** C9: a hook slot holds one callback.  Registering the same kind of hook
    twice in a row is the same as registering the second callback alone,
    and the slot then holds the second callback, at plan level and at
    suite level alike. *)
Theorem hook_slot_keeps_last (k : HookKind) (cb1 cb2 : Fn) (r : RhumRunner) :
  (register_hook k cb1 ;;; register_hook k cb2) r = register_hook k cb2 r
  /\ (passed_in_test_plan r <> "" ->
      passed_in_test_suite r = "" ->
      suite_hook k
        (plan (snd ((register_hook k cb1 ;;; register_hook k cb2) r)))
      = Some cb2)
  /\ (forall s,
      passed_in_test_plan r <> "" ->
      passed_in_test_suite r <> "" ->
      get_suite (passed_in_test_suite r) (suites (plan r)) = Some s ->
      case_hook_of k (passed_in_test_suite r)
        (snd ((register_hook k cb1 ;;; register_hook k cb2) r))
      = Some cb2).
Proof.
  assert (Hseq : (register_hook k cb1 ;;; register_hook k cb2) r
                 = register_hook k cb2 r).
  { unfold bind at 1.
    destruct (String.eqb_spec (passed_in_test_plan r) "") as [Hp|Hp].
    { rewrite (register_hook_no_plan k cb1 r Hp). reflexivity. }
    destruct (String.eqb_spec (passed_in_test_suite r) "") as [Hs|Hs].
    { rewrite (register_hook_plan_scope k cb1 r Hp Hs).
      rewrite (register_hook_plan_scope k cb2 r Hp Hs).
      rewrite register_hook_plan_scope by assumption.
      cbn. now rewrite set_suite_hook_twice. }
    destruct (get_suite (passed_in_test_suite r) (suites (plan r))) as [s|] eqn:Hg.
    - rewrite (register_hook_suite_scope k cb1 r s Hp Hs Hg).
      rewrite (register_hook_suite_scope k cb2 r s Hp Hs Hg).
      erewrite register_hook_suite_scope;
        [ | assumption | assumption | cbn; apply get_suite_set_same ].
      cbn. now rewrite set_suite_twice, set_case_hook_twice.
    - rewrite !register_hook_unfold.
      apply truthy_true in Hp. apply truthy_true in Hs. rewrite Hp, Hs. cbn [andb].
      now rewrite !assign_case_hook_missing by assumption. }
  split; [exact Hseq|]. rewrite Hseq. split.
  - intros Hp Hs. rewrite register_hook_plan_scope by assumption.
    cbn. apply suite_hook_set.
  - intros s Hp Hs Hg.
    rewrite (register_hook_suite_scope k cb2 r s) by assumption.
    unfold case_hook_of. cbn. rewrite get_suite_set_same.
    apply case_hook_set.
Qed.

Lemma hook_slot_keeps_last_witness :
  let r := snd (exec (CallTestPlan "P" (CallTestSuite "S" Done)) new_RhumRunner) in
  let r0 := with_passed_in_test_suite "" r in
  suite_hook BeforeAll
    (plan (snd ((register_hook BeforeAll (FnRef 1) ;;;
                 register_hook BeforeAll (FnRef 2)) r0))) = Some (FnRef 2)
  /\ case_hook_of BeforeEach "S"
       (snd ((register_hook BeforeEach (FnRef 1) ;;;
              register_hook BeforeEach (FnRef 2)) r)) = Some (FnRef 2).
Proof.
  intros r r0. split.
  - destruct (hook_slot_keeps_last BeforeAll (FnRef 1) (FnRef 2) r0) as (_ & H & _).
    apply H; [discriminate | reflexivity].
  - destruct (hook_slot_keeps_last BeforeEach (FnRef 1) (FnRef 2) r) as (_ & _ & H).
    apply (H fresh_suite); [discriminate | discriminate | reflexivity].
Defined.

(** ** Bodies that register cases and hooks *)

Lemma has_cases_get (key : string) (o : list (string * Suite)) :
  has_cases key o = true ->
  exists s cs, get_suite key o = Some s /\ cases s = Some cs.
Proof.
  unfold has_cases. destruct (get_suite key o) as [s|]; [|discriminate].
  destruct (cases s) as [cs|] eqn:Hc; [|discriminate].
  intros _. now exists s, cs.
Qed.

Lemma has_cases_set (key : string) (v : Suite) (o : list (string * Suite)) :
  cases v <> None -> has_cases key (set_suite key v o) = true.
Proof.
  intros Hv. unfold has_cases. rewrite get_suite_set_same.
  destruct (cases v); [reflexivity | contradiction].
Qed.


(** ** Where a hook registration goes *)




(** ** The cursor names a record *)

Lemma cursor_bound_new : cursor_bound new_RhumRunner = true.
Proof. reflexivity. Qed.

(** [cursor_bound] reads the cursor's suite scope and the [suites] object
    only. *)
Lemma cursor_bound_ext (r r' : RhumRunner) :
  passed_in_test_suite r' = passed_in_test_suite r ->
  suites (plan r') = suites (plan r) ->
  cursor_bound r' = cursor_bound r.
Proof. unfold cursor_bound. now intros -> ->. Qed.

Lemma cursor_bound_active (r : RhumRunner) :
  cursor_bound r = true ->
  passed_in_test_suite r <> "" ->
  exists s cs,
    get_suite (passed_in_test_suite r) (suites (plan r)) = Some s
    /\ cases s = Some cs.
Proof.
  unfold cursor_bound. intros H Hs. apply truthy_true in Hs.
  rewrite Hs in H. simpl in H. now apply has_cases_get.
Qed.

Lemma register_hook_keeps_cursor_bound (k : HookKind) (cb : Fn) (r : RhumRunner) :
  cursor_bound r = true -> cursor_bound (snd (register_hook k cb r)) = true.
Proof.
  intros H.
  destruct (String.eqb_spec (passed_in_test_plan r) "") as [Hp|Hp].
  { now rewrite register_hook_no_plan. }
  destruct (String.eqb_spec (passed_in_test_suite r) "") as [Hs|Hs].
  { rewrite register_hook_plan_scope by assumption. cbn.
    rewrite <- H. apply cursor_bound_ext; destruct k; reflexivity. }
  destruct (cursor_bound_active r H Hs) as (s & cs & Hg & Hc).
  rewrite (register_hook_suite_scope k cb r s Hp Hs Hg).
  unfold cursor_bound. cbn. rewrite has_cases_set; [apply orb_true_r|].
  cbn. congruence.
Qed.

Lemma testCase_keeps_cursor_bound (n : string) (f : Fn) (r : RhumRunner) :
  cursor_bound r = true -> cursor_bound (snd (testCase n f r)) = true.
Proof.
  intros H.
  destruct (get_suite (passed_in_test_suite r) (suites (plan r))) as [s|] eqn:Hg.
  - destruct (cases s) as [cs|] eqn:Hc.
    + rewrite (testCase_present n f r s cs Hg Hc).
      unfold cursor_bound. cbn. rewrite has_cases_set; [apply orb_true_r|].
      cbn. discriminate.
    + unfold testCase, bind, get, deref_suite, throw. now rewrite Hg, Hc.
  - now rewrite testCase_missing.
Qed.

(** [testPlan] keeps the invariant when its body does. *)
Lemma testPlan_keeps_cursor_bound (n : string) (body : M unit) :
  (forall r, cursor_bound r = true -> cursor_bound (snd (body r)) = true) ->
  forall r, cursor_bound r = true -> cursor_bound (snd (testPlan n body r)) = true.
Proof.
  intros Hbody r _.
  change (testPlan n body r)
    with (body (with_passed_in_test_plan n (with_passed_in_test_suite "" r))).
  apply Hbody. reflexivity.
Qed.

(** [testSuite] keeps the invariant when its body does; it establishes it
    for its body whatever the state it is called in. *)
Lemma testSuite_keeps_cursor_bound (n : string) (body : M unit) :
  (forall r, cursor_bound r = true -> cursor_bound (snd (body r)) = true) ->
  forall r, cursor_bound (snd (testSuite n body r)) = true.
Proof.
  intros Hbody r.
  change (testSuite n body r)
    with (body (with_plan
                  (with_suites (set_suite n fresh_suite (suites (plan r))) (plan r))
                  (with_passed_in_test_suite n r))).
  apply Hbody. unfold cursor_bound. cbn.
  rewrite has_cases_set; [apply orb_true_r | discriminate].
Qed.

Lemma exec_keeps_cursor_bound (s : Script) :
  forall r, cursor_bound r = true -> cursor_bound (snd (exec s r)) = true.
Proof.
  induction s as [|a IHa b IHb|n body IH|n body IH|n f|k cb|cb|n cb];
    simpl; intros r H.
  - exact H.
  - unfold bind. specialize (IHa r H).
    destruct (exec a r) as [[e|[]] r1]; simpl in *; auto.
  - now apply testPlan_keeps_cursor_bound.
  - now apply testSuite_keeps_cursor_bound.
  - now apply testCase_keeps_cursor_bound.
  - now apply register_hook_keeps_cursor_bound.
  - exact H.
  - exact H.
Qed.

(** C10: in every state a registration program reaches from a state
    where the invariant holds (the new runner is one), a set suite scope
    names a record of the [suites] object that has its [cases] array; so
    there [testCase] and each hook-registration method return normally
    instead of dereferencing a missing record. *)
Theorem cursor_names_a_record (s : Script) (r0 : RhumRunner) :
  cursor_bound r0 = true ->
  let r := snd (exec s r0) in
  cursor_bound r = true
  /\ (passed_in_test_suite r <> "" ->
      (exists rec cs,
          get_suite (passed_in_test_suite r) (suites (plan r)) = Some rec
          /\ cases rec = Some cs)
      /\ (forall n f, returns (testCase n f r) = true)
      /\ (forall k cb, returns (register_hook k cb r) = true)).
Proof.
  intros H0 r.
  assert (H : cursor_bound r = true) by now apply exec_keeps_cursor_bound.
  split; [exact H|]. intros Hs.
  destruct (cursor_bound_active r H Hs) as (rec & cs & Hg & Hc).
  split; [now exists rec, cs|]. split.
  - intros n f. now rewrite (testCase_present n f r rec cs Hg Hc).
  - intros k cb.
    destruct (String.eqb_spec (passed_in_test_plan r) "") as [Hp|Hp].
    + now rewrite register_hook_no_plan.
    + now rewrite (register_hook_suite_scope k cb r rec Hp Hs Hg).
Qed.

Lemma cursor_names_a_record_witness :
  let r := snd (exec (CallTestPlan "P"
                        (Seq (CallTestSuite "A" (CallTestCase "a" (FnRef 1)))
                             (CallTestSuite "B" Done)))
                  new_RhumRunner) in
  passed_in_test_suite r = "B"
  /\ has_cases "B" (suites (plan r)) = true
  /\ returns (testCase "b" (FnRef 2) r) = true.
Proof.
  intros r.
  destruct (cursor_names_a_record
              (CallTestPlan "P"
                 (Seq (CallTestSuite "A" (CallTestCase "a" (FnRef 1)))
                      (CallTestSuite "B" Done)))
              new_RhumRunner eq_refl) as (_ & H).
  destruct H as (_ & Hcase & _); [discriminate|].
  split; [reflexivity|]. split; [reflexivity|]. apply Hcase.
Defined.

(** ** New keys *)


(** ** Headers in display names *)

Lemma length_append (a b : string) :
  String.length (a ++ b) = String.length a + String.length b.
Proof. induction a as [|c a IH]; simpl; [reflexivity | now rewrite IH]. Qed.

Lemma length_repeat_string (s : string) (n : nat) :
  String.length (repeat_string s n) = n * String.length s.
Proof.
  induction n as [|n IH]; simpl; [reflexivity|].
  now rewrite length_append, IH.
Qed.

Lemma render_length (l : Layout) (p s n : string) :
  String.length (render l p s n) =
  match l with
  | WithPlanHeader => 3 * String.length n + String.length p + String.length s + 40
  | WithSuiteHeader => 3 * String.length n + String.length s + 38
  | CaseOnly => 2 * String.length n + 23
  end.
Proof.
  destruct l; unfold render, extraChars;
    rewrite ?length_append, ?length_repeat_string; simpl; lia.
Qed.

(** The three shapes never give the same text: the shape can be read off
    a display name. *)
Lemma render_layout (l l' : Layout) (p s n : string) :
  String.eqb (render l p s n) (render l' p s n) = Layout_eqb l l'.
Proof.
  destruct (String.eqb_spec (render l p s n) (render l' p s n)) as [E|E].
  - apply (f_equal String.length) in E. rewrite !render_length in E.
    destruct l, l'; simpl; try reflexivity; lia.
  - destruct l, l'; simpl; try reflexivity; now contradiction E.
Qed.

Lemma format_all_cons (g : Registration) (gs : list Registration) (r : RhumRunner) :
  format_all (g :: gs) r =
  (g, render (layout (enter g r)) (at_plan g) (at_suite g) (case_name g))
    :: format_all gs
         (with_test_suite_in_progress (at_suite g)
            (with_test_plan_in_progress (at_plan g) (enter g r))).
Proof.
  simpl. rewrite formatTestCaseName_layout. reflexivity.
Qed.

(** The formatter gives the plan line exactly when the plan name differs
    from the one in progress, that is, from the previous registration's. *)
Lemma plan_headers_changes (p : string) (gs : list Registration) (r : RhumRunner) :
  plan_headers p (format_all gs r)
  = changes_to String.eqb p (test_plan_in_progress r) (map at_plan gs).
Proof.
  revert r. induction gs as [|g gs IH]; intros r; [reflexivity|].
  rewrite format_all_cons.
  set (r' := with_test_suite_in_progress (at_suite g)
               (with_test_plan_in_progress (at_plan g) (enter g r))).
  specialize (IH r'). change (test_plan_in_progress r') with (at_plan g) in IH.
  unfold plan_headers in *. cbn [filter map changes_to]. rewrite <- IH.
  unfold shows_plan_header at 1. cbn [fst snd].
  rewrite render_layout.
  replace (Layout_eqb (layout (enter g r)) WithPlanHeader)
    with (negb (String.eqb (test_plan_in_progress r) (at_plan g))).
  2:{ unfold layout, enter. cbn.
      destruct (String.eqb (test_plan_in_progress r) (at_plan g)); cbn;
        [|reflexivity].
      now destruct (String.eqb (test_suite_in_progress r) (at_suite g)). }
  now destruct (String.eqb (at_plan g) p
                && negb (String.eqb (test_plan_in_progress r) (at_plan g))).
Qed.

(** The formatter gives the suite line exactly when the plan name or the
    suite name differs from the previous registration's. *)
Lemma suite_headers_changes (p s : string) (gs : list Registration) (r : RhumRunner) :
  suite_headers p s (format_all gs r)
  = changes_to pair_eqb (p, s)
      (test_plan_in_progress r, test_suite_in_progress r)
      (map (fun g => (at_plan g, at_suite g)) gs).
Proof.
  revert r. induction gs as [|g gs IH]; intros r; [reflexivity|].
  rewrite format_all_cons.
  set (r' := with_test_suite_in_progress (at_suite g)
               (with_test_plan_in_progress (at_plan g) (enter g r))).
  specialize (IH r').
  change (test_plan_in_progress r') with (at_plan g) in IH.
  change (test_suite_in_progress r') with (at_suite g) in IH.
  unfold suite_headers in *. cbn [filter map changes_to]. rewrite <- IH.
  unfold shows_suite_header at 1, shows_plan_header at 1. cbn [fst snd].
  rewrite !render_layout.
  replace (Layout_eqb (layout (enter g r)) WithPlanHeader
           || Layout_eqb (layout (enter g r)) WithSuiteHeader)
    with (negb (pair_eqb (test_plan_in_progress r, test_suite_in_progress r)
                  (at_plan g, at_suite g))).
  2:{ unfold layout, enter, pair_eqb. cbn.
      destruct (String.eqb (test_plan_in_progress r) (at_plan g)); cbn;
        [|reflexivity].
      now destruct (String.eqb (test_suite_in_progress r) (at_suite g)). }
  unfold pair_eqb. cbn [fst snd].
  now destruct (String.eqb (at_plan g) p), (String.eqb (at_suite g) s),
    (String.eqb (test_plan_in_progress r) (at_plan g)),
    (String.eqb (test_suite_in_progress r) (at_suite g)).
Qed.

Section ChangesFacts.

Variable A : Type.
Variable eqb : A -> A -> bool.
Hypothesis eqb_ok : forall x y, eqb x y = true <-> x = y.

Lemma eqb_ok_refl (x : A) : eqb x x = true.
Proof. now apply eqb_ok. Qed.

Lemma eqb_ok_sym (x y : A) : eqb x y = eqb y x.
Proof.
  destruct (eqb x y) eqn:E, (eqb y x) eqn:E'; try reflexivity.
  - apply eqb_ok in E. subst. now rewrite eqb_ok_refl in E'.
  - apply eqb_ok in E'. subst. now rewrite eqb_ok_refl in E.
Qed.

Lemma existsb_eqb_In (a : A) (l : list A) :
  existsb (eqb a) l = true <-> In a l.
Proof.
  rewrite existsb_exists. split.
  - intros (x & Hx & E). apply eqb_ok in E. now subst.
  - intros H. exists a. split; [exact H | apply eqb_ok_refl].
Qed.

(** In a grouped sequence every value other than the starting one is
    moved to once if it occurs, and the starting one never. *)
Lemma changes_to_grouped (l : list A) :
  forall prev a,
    grouped_from eqb prev l = true ->
    changes_to eqb a prev l =
    if eqb a prev then 0 else if existsb (eqb a) l then 1 else 0.
Proof.
  induction l as [|x l IH]; intros prev a H.
  - simpl. now destruct (eqb a prev).
  - cbn [grouped_from] in H. apply andb_true_iff in H as [H1 H2].
    cbn [changes_to]. rewrite (IH x a H2). cbn [existsb].
    destruct (eqb prev x) eqn:Epx.
    + apply eqb_ok in Epx. subst x. rewrite andb_false_r. cbn.
      now destruct (eqb a prev).
    + cbn in H1. rewrite Epx in H1. cbn in H1.
      apply negb_true_iff in H1. rewrite andb_true_r.
      destruct (eqb x a) eqn:Exa.
      * apply eqb_ok in Exa. subst a.
        rewrite eqb_ok_refl, (eqb_ok_sym x prev), Epx. reflexivity.
      * rewrite (eqb_ok_sym a x), Exa. cbn.
        destruct (eqb a prev) eqn:Eap; [|reflexivity].
        apply eqb_ok in Eap. subst a. now rewrite H1.
Qed.

End ChangesFacts.

Lemma pair_eqb_eq (a b : string * string) : pair_eqb a b = true <-> a = b.
Proof.
  destruct a as [a1 a2], b as [b1 b2]. unfold pair_eqb. cbn.
  rewrite andb_true_iff, !String.eqb_eq. split.
  - now intros [-> ->].
  - now intros [= -> ->].
Qed.

(** C7, as stated, fails: the formatter compares a name with the one in
    progress only, so a plan name that comes back after another plan gets
    its header again, and so does a suite name that comes back within a
    plan.  The builder reaches the first case with three plans in a row. *)
Lemma header_repeats_when_name_recurs :
  (plan_headers "P"
     (format_all [mkRegistration "P" "S1" "a"; mkRegistration "Q" "S2" "b";
                  mkRegistration "P" "S3" "c"] new_RhumRunner) = 2
   /\ suite_headers "P" "S1"
        (format_all [mkRegistration "P" "S1" "a"; mkRegistration "P" "S2" "b";
                     mkRegistration "P" "S1" "c"] new_RhumRunner) = 2)
  /\ let r := snd (exec
                     (Seq (CallTestPlan "P" (CallTestSuite "S1" (CallTestCase "a" (FnRef 1))))
                     (Seq (CallTestPlan "Q" (CallTestSuite "S2" (CallTestCase "b" (FnRef 2))))
                          (CallTestPlan "P" (CallTestSuite "S3" (CallTestCase "c" (FnRef 3))))))
                     new_RhumRunner) in
     map (fun kv => option_map (map new_name) (cases (snd kv))) (suites (plan r))
     = [Some [render WithPlanHeader "P" "S1" "a"];
        Some [render WithPlanHeader "Q" "S2" "b"];
        Some [render WithPlanHeader "P" "S3" "c"]].
Proof.
  vm_compute. repeat split.
Qed.

(** C7, amended: the formatter gives the plan header when the plan name
    differs from that of the previous registration, and the suite header
    when the plan name or the suite name does.  So in a sequence of
    registrations where a plan name, once left, does not come back, every
    plan name other than the one in progress at the start has its header
    in exactly one display name; and where a plan and suite name pair, once
    left, does not come back, every suite of a plan other than the one in
    progress at the start has its header in exactly one display name,
    however many cases are registered in it. *)
Theorem headers_once_when_grouped (gs : list Registration) (r : RhumRunner)
    (g : Registration) :
  In g gs ->
  (grouped_from String.eqb (test_plan_in_progress r) (map at_plan gs) = true ->
   at_plan g <> test_plan_in_progress r ->
   plan_headers (at_plan g) (format_all gs r) = 1)
  /\ (grouped_from pair_eqb
        (test_plan_in_progress r, test_suite_in_progress r)
        (map (fun x => (at_plan x, at_suite x)) gs) = true ->
      (at_plan g, at_suite g)
      <> (test_plan_in_progress r, test_suite_in_progress r) ->
      suite_headers (at_plan g) (at_suite g) (format_all gs r) = 1).
Proof.
  intros Hin. split.
  - intros Hgr Hne. rewrite plan_headers_changes.
    rewrite (changes_to_grouped string String.eqb String.eqb_eq _ _ _ Hgr).
    apply String.eqb_neq in Hne. rewrite Hne.
    assert (H : existsb (String.eqb (at_plan g)) (map at_plan gs) = true).
    { apply (existsb_eqb_In string String.eqb String.eqb_eq).
      now apply in_map. }
    now rewrite H.
  - intros Hgr Hne. rewrite suite_headers_changes.
    rewrite (changes_to_grouped _ pair_eqb pair_eqb_eq _ _ _ Hgr).
    destruct (pair_eqb (at_plan g, at_suite g)
                (test_plan_in_progress r, test_suite_in_progress r)) eqn:E.
    { apply pair_eqb_eq in E. contradiction. }
    assert (H : existsb (pair_eqb (at_plan g, at_suite g))
                  (map (fun x => (at_plan x, at_suite x)) gs) = true).
    { apply (existsb_eqb_In _ pair_eqb pair_eqb_eq).
      apply (in_map (fun x => (at_plan x, at_suite x))). exact Hin. }
    now rewrite H.
Qed.

Lemma headers_once_when_grouped_witness :
  let gs := [mkRegistration "P" "S1" "a"; mkRegistration "P" "S1" "b";
             mkRegistration "P" "S2" "c"; mkRegistration "Q" "S1" "d"] in
  plan_headers "P" (format_all gs new_RhumRunner) = 1
  /\ suite_headers "P" "S1" (format_all gs new_RhumRunner) = 1.
Proof.
  intros gs.
  destruct (headers_once_when_grouped gs new_RhumRunner
              (mkRegistration "P" "S1" "b")) as (Hp & Hs).
  - simpl. tauto.
  - split.
    + apply Hp; [reflexivity | discriminate].
    + apply Hs; [reflexivity | discriminate].
Defined.

(** * Further properties of the builder *)

(** ** What a registration leaves alone *)

Lemma set_suite_keys (key : string) (v : Suite) (o : list (string * Suite)) :
  map fst (set_suite key v o)
  = (map fst o
     ++ match get_suite key o with Some _ => [] | None => [key] end)%list.
Proof.
  induction o as [|[k w] rest IH]; simpl; [reflexivity|].
  destruct (String.eqb_spec k key) as [->|Hk]; simpl.
  - now rewrite app_nil_r.
  - now rewrite IH.
Qed.

Lemma case_hook_set_cases (k : HookKind) (cs : option (list Case)) (s : Suite) :
  case_hook k (set_cases cs s) = case_hook k s.
Proof. now destruct k. Qed.

Lemma case_hook_set_other (k k' : HookKind) (cb : option Fn) (s : Suite) :
  k' <> k -> case_hook k' (set_case_hook k cb s) = case_hook k' s.
Proof. destruct k, k'; intros H; try reflexivity; now contradiction H. Qed.

Lemma suite_hook_set_other (k k' : HookKind) (cb : option Fn) (p : IPlan) :
  k' <> k -> suite_hook k' (set_suite_hook k cb p) = suite_hook k' p.
Proof. destruct k, k'; intros H; try reflexivity; now contradiction H. Qed.

(** A successful [testCase] changes one thing in the document, the case
    list of the suite under the cursor, and moves the in-progress names to
    the cursor's; the cursor's scopes, every hook slot, every other suite
    and the order of the suites stay as they were. *)
Theorem testCase_frame (n : string) (f : Fn) (r : RhumRunner) (s : Suite)
    (cs : list Case) :
  get_suite (passed_in_test_suite r) (suites (plan r)) = Some s ->
  cases s = Some cs ->
  let r' := snd (testCase n f r) in
  passed_in_test_plan r' = passed_in_test_plan r
  /\ passed_in_test_suite r' = passed_in_test_suite r
  /\ test_plan_in_progress r' = passed_in_test_plan r
  /\ test_suite_in_progress r' = passed_in_test_suite r
  /\ (forall k, suite_hook k (plan r') = suite_hook k (plan r))
  /\ (forall k key, case_hook_of k key r' = case_hook_of k key r)
  /\ (forall key, key <> passed_in_test_suite r ->
        get_suite key (suites (plan r')) = get_suite key (suites (plan r)))
  /\ map fst (suites (plan r')) = map fst (suites (plan r)).
Proof.
  intros Hg Hc r'. subst r'. rewrite (testCase_present n f r s cs Hg Hc). cbn.
  split; [reflexivity|]. split; [reflexivity|]. split; [reflexivity|].
  split; [reflexivity|]. split; [now intros []|]. split; [|split].
  - intros k key. unfold case_hook_of. cbn.
    destruct (String.eqb_spec (passed_in_test_suite r) key) as [<-|Hne].
    + rewrite get_suite_set_same, Hg. apply case_hook_set_cases.
    + now rewrite get_suite_set_other.
  - intros key Hne. apply get_suite_set_other. congruence.
  - apply set_suite_keeps_keys. congruence.
Qed.

Lemma testCase_frame_witness :
  let r := snd (exec (CallTestPlan "P"
                        (Seq (CallHook BeforeAll (FnRef 1))
                        (Seq (CallTestSuite "A" (CallTestCase "a" (FnRef 2)))
                             (CallTestSuite "B" (CallHook AfterEach (FnRef 3))))))
                  new_RhumRunner) in
  let r' := snd (testCase "b" (FnRef 4) r) in
  get_suite "A" (suites (plan r')) = get_suite "A" (suites (plan r))
  /\ case_hook_of AfterEach "B" r' = Some (FnRef 3)
  /\ suite_hook BeforeAll (plan r') = Some (FnRef 1).
Proof.
  intros r r'.
  destruct (testCase_frame "b" (FnRef 4) r
              (set_case_hook AfterEach (Some (FnRef 3)) fresh_suite) []
              eq_refl eq_refl)
    as (_ & _ & _ & _ & Hplan & Hcase & Hother & _).
  subst r'. split; [apply Hother; discriminate|].
  split; [now rewrite (Hcase AfterEach "B") | now rewrite (Hplan BeforeAll)].
Defined.

(** A hook registration, in whatever state it is made and whether it
    returns or throws, leaves the four cursor fields, the case list of
    every suite, the order of the suites, every slot of another lifecycle
    point and every slot of a suite other than the cursor's as they
    were. *)
Theorem register_hook_frame (k : HookKind) (cb : Fn) (r : RhumRunner) :
  let r' := snd (register_hook k cb r) in
  (passed_in_test_plan r' = passed_in_test_plan r
   /\ passed_in_test_suite r' = passed_in_test_suite r
   /\ test_plan_in_progress r' = test_plan_in_progress r
   /\ test_suite_in_progress r' = test_suite_in_progress r)
  /\ (forall key, option_map cases (get_suite key (suites (plan r')))
                  = option_map cases (get_suite key (suites (plan r))))
  /\ map fst (suites (plan r')) = map fst (suites (plan r))
  /\ (forall k', k' <> k -> suite_hook k' (plan r') = suite_hook k' (plan r))
  /\ (forall k' key, k' <> k \/ key <> passed_in_test_suite r ->
        case_hook_of k' key r' = case_hook_of k' key r).
Proof.
  intros r'. subst r'.
  destruct (String.eqb_spec (passed_in_test_plan r) "") as [Hp|Hp].
  { rewrite register_hook_no_plan by assumption. cbn. repeat split. }
  destruct (String.eqb_spec (passed_in_test_suite r) "") as [Hs|Hs].
  { rewrite register_hook_plan_scope by assumption. cbn.
    split; [repeat split|]. split; [reflexivity|]. split; [reflexivity|].
    split; [|reflexivity].
    intros k' Hk. now apply suite_hook_set_other. }
  destruct (get_suite (passed_in_test_suite r) (suites (plan r))) as [s|] eqn:Hg.
  - rewrite (register_hook_suite_scope k cb r s Hp Hs Hg). cbn.
    split; [repeat split|]. split; [|split; [|split]].
    + intros key.
      destruct (String.eqb_spec (passed_in_test_suite r) key) as [<-|Hne].
      * now rewrite get_suite_set_same, Hg.
      * now rewrite get_suite_set_other.
    + apply set_suite_keeps_keys. congruence.
    + now intros [].
    + intros k' key Hor. unfold case_hook_of. cbn.
      destruct (String.eqb_spec (passed_in_test_suite r) key) as [<-|Hne].
      * rewrite get_suite_set_same, Hg. apply case_hook_set_other.
        destruct Hor as [H|H]; [exact H | now contradiction H].
      * now rewrite get_suite_set_other.
  - rewrite register_hook_unfold.
    apply truthy_true in Hp. apply truthy_true in Hs. rewrite Hp, Hs. cbn [andb].
    rewrite assign_case_hook_missing by assumption. cbn. repeat split.
Qed.

Lemma register_hook_frame_witness :
  let r := snd (exec (CallTestPlan "P"
                        (Seq (CallTestSuite "A" (CallHook BeforeEach (FnRef 1)))
                             (CallTestSuite "B" (CallTestCase "b" (FnRef 2)))))
                  new_RhumRunner) in
  let r' := snd (register_hook BeforeEach (FnRef 3) r) in
  case_hook_of BeforeEach "A" r' = Some (FnRef 1)
  /\ case_hook_of AfterEach "B" r' = None
  /\ option_map cases (get_suite "B" (suites (plan r')))
     = option_map cases (get_suite "B" (suites (plan r))).
Proof.
  intros r r'.
  destruct (register_hook_frame BeforeEach (FnRef 3) r)
    as (_ & Hcases & _ & _ & Hslots).
  subst r'. split; [|split].
  - rewrite (Hslots BeforeEach "A"); [reflexivity | right; discriminate].
  - rewrite (Hslots AfterEach "B"); [reflexivity | left; discriminate].
  - apply Hcases.
Defined.

Lemma set_case_hook_swap (k1 k2 : HookKind) (a b : option Fn) (s : Suite) :
  k1 <> k2 ->
  set_case_hook k2 b (set_case_hook k1 a s)
  = set_case_hook k1 a (set_case_hook k2 b s).
Proof. destruct k1, k2; intros H; try reflexivity; now contradiction H. Qed.

Lemma set_suite_hook_swap (k1 k2 : HookKind) (a b : option Fn) (p : IPlan) :
  k1 <> k2 ->
  set_suite_hook k2 b (set_suite_hook k1 a p)
  = set_suite_hook k1 a (set_suite_hook k2 b p).
Proof. destruct k1, k2; intros H; try reflexivity; now contradiction H. Qed.

(** Hooks of two different lifecycle points can be registered in either
    order: the result, and the runner left behind, are the same. *)
Theorem register_hook_commutes (k1 k2 : HookKind) (cb1 cb2 : Fn) (r : RhumRunner) :
  k1 <> k2 ->
  (register_hook k1 cb1 ;;; register_hook k2 cb2) r
  = (register_hook k2 cb2 ;;; register_hook k1 cb1) r.
Proof.
  intros Hk. unfold bind.
  destruct (String.eqb_spec (passed_in_test_plan r) "") as [Hp|Hp].
  { repeat first [ rewrite (register_hook_no_plan k1 cb1 r Hp)
                 | rewrite (register_hook_no_plan k2 cb2 r Hp)
                 | progress cbv beta iota ].
    reflexivity. }
  destruct (String.eqb_spec (passed_in_test_suite r) "") as [Hs|Hs].
  { rewrite (register_hook_plan_scope k1 cb1 r Hp Hs),
      (register_hook_plan_scope k2 cb2 r Hp Hs).
    cbv beta iota.
    rewrite !register_hook_plan_scope by assumption.
    cbn. now rewrite set_suite_hook_swap. }
  destruct (get_suite (passed_in_test_suite r) (suites (plan r))) as [s|] eqn:Hg.
  - rewrite (register_hook_suite_scope k1 cb1 r s Hp Hs Hg),
      (register_hook_suite_scope k2 cb2 r s Hp Hs Hg).
    cbv beta iota.
    erewrite (register_hook_suite_scope k2 cb2);
      [ | assumption | assumption | cbn; apply get_suite_set_same ].
    erewrite (register_hook_suite_scope k1 cb1);
      [ | assumption | assumption | cbn; apply get_suite_set_same ].
    cbn. rewrite !set_suite_twice. now rewrite set_case_hook_swap.
  - rewrite !register_hook_unfold.
    apply truthy_true in Hp. apply truthy_true in Hs. rewrite Hp, Hs. cbn [andb].
    now rewrite !assign_case_hook_missing by assumption.
Qed.

Lemma register_hook_commutes_witness :
  let r := snd (exec (CallTestPlan "P" (CallTestSuite "S" Done)) new_RhumRunner) in
  (register_hook BeforeAll (FnRef 1) ;;; register_hook AfterAll (FnRef 2)) r
  = (register_hook AfterAll (FnRef 2) ;;; register_hook BeforeAll (FnRef 1)) r.
Proof.
  intros r. apply register_hook_commutes. discriminate.
Defined.

(** ** The formatter, call after call *)

(** The formatter never throws and leaves the in-progress names equal to
    the cursor's; called again before the cursor moves it gives the bare
    case line, with neither header, and changes nothing more. *)
Theorem formatTestCaseName_settles (n1 n2 : string) (r : RhumRunner) :
  let r1 := snd (formatTestCaseName n1 r) in
  returns (formatTestCaseName n1 r) = true
  /\ test_plan_in_progress r1 = passed_in_test_plan r
  /\ test_suite_in_progress r1 = passed_in_test_suite r
  /\ layout r1 = CaseOnly
  /\ formatTestCaseName n2 r1
     = (inr (repeat_string backspace (String.length n2 + extraChars)
             ++ "        " ++ n2 ++ " ... "), r1).
Proof.
  intros r1. subst r1. rewrite !formatTestCaseName_layout. cbn.
  assert (HL : layout
                 (with_test_suite_in_progress (passed_in_test_suite r)
                    (with_test_plan_in_progress (passed_in_test_plan r) r))
               = CaseOnly).
  { unfold layout. cbn. now rewrite !String.eqb_refl. }
  rewrite HL. repeat split.
Qed.

(** Display names of different layouts always differ, whatever the plan,
    suite and case names are: the formatter gives the same name a second
    time exactly when it takes the same branch.  The length of a display
    name is fixed by the branch and the lengths of the three names. *)
Theorem display_name_tells_layout (n : string) (r1 r2 : RhumRunner) :
  passed_in_test_plan r1 = passed_in_test_plan r2 ->
  passed_in_test_suite r1 = passed_in_test_suite r2 ->
  (fst (formatTestCaseName n r1) = fst (formatTestCaseName n r2)
   <-> layout r1 = layout r2)
  /\ (forall out, fst (formatTestCaseName n r1) = inr out ->
        String.length out =
        match layout r1 with
        | WithPlanHeader =>
            3 * String.length n + String.length (passed_in_test_plan r1)
            + String.length (passed_in_test_suite r1) + 40
        | WithSuiteHeader =>
            3 * String.length n + String.length (passed_in_test_suite r1) + 38
        | CaseOnly => 2 * String.length n + 23
        end).
Proof.
  intros Hp Hs. rewrite !formatTestCaseName_layout. cbn. split.
  - rewrite Hp, Hs. split.
    + intros [= E]. apply String.eqb_eq in E. rewrite render_layout in E.
      now destruct (layout r1), (layout r2).
    + now intros ->.
  - intros out [= <-]. apply render_length.
Qed.

Lemma display_name_tells_layout_witness :
  let r1 := with_passed_in_test_suite "S" (with_passed_in_test_plan "P" new_RhumRunner) in
  let r2 := snd (formatTestCaseName "a" r1) in
  fst (formatTestCaseName "b" r1) <> fst (formatTestCaseName "b" r2).
Proof.
  intros r1 r2.
  destruct (display_name_tells_layout "b" r1 r2 eq_refl eq_refl) as (H & _).
  intros E. apply H in E. discriminate E.
Defined.

(** ** Programs that do not throw *)

Lemma register_hook_keeps_suite_open (k : HookKind) (cb : Fn) (r : RhumRunner) :
  suite_open r = true -> suite_open (snd (register_hook k cb r)) = true.
Proof.
  intros H.
  destruct (String.eqb_spec (passed_in_test_plan r) "") as [Hp|Hp].
  { now rewrite register_hook_no_plan. }
  destruct (String.eqb_spec (passed_in_test_suite r) "") as [Hs|Hs].
  { rewrite register_hook_plan_scope by assumption. unfold suite_open in *. cbn.
    now destruct k. }
  destruct (has_cases_get _ _ H) as (s & cs & Hg & Hc).
  rewrite (register_hook_suite_scope k cb r s Hp Hs Hg).
  unfold suite_open. cbn. apply has_cases_set. cbn. congruence.
Qed.

Lemma register_hook_returns (k : HookKind) (cb : Fn) (r : RhumRunner) :
  cursor_bound r = true -> returns (register_hook k cb r) = true.
Proof.
  intros H.
  destruct (String.eqb_spec (passed_in_test_plan r) "") as [Hp|Hp].
  { now rewrite register_hook_no_plan. }
  destruct (String.eqb_spec (passed_in_test_suite r) "") as [Hs|Hs].
  { now rewrite register_hook_plan_scope. }
  destruct (cursor_bound_active r H Hs) as (s & cs & Hg & _).
  now rewrite (register_hook_suite_scope k cb r s Hp Hs Hg).
Qed.

Lemma testCase_open (n : string) (f : Fn) (r : RhumRunner) :
  suite_open r = true ->
  returns (testCase n f r) = true /\ suite_open (snd (testCase n f r)) = true.
Proof.
  intros H. destruct (has_cases_get _ _ H) as (s & cs & Hg & Hc).
  rewrite (testCase_present n f r s cs Hg Hc). split; [reflexivity|].
  unfold suite_open. cbn. apply has_cases_set. cbn. discriminate.
Qed.

Lemma suite_open_cursor_bound (r : RhumRunner) :
  suite_open r = true -> cursor_bound r = true.
Proof. unfold suite_open, cursor_bound. intros ->. apply orb_true_r. Qed.

Lemma exec_well_scoped (s : Script) :
  forall b r,
    cursor_bound r = true ->
    (b = true -> suite_open r = true) ->
    well_scoped b s = true ->
    returns (exec s r) = true
    /\ (opens b s = true -> suite_open (snd (exec s r)) = true).
Proof.
  induction s as [|a IHa c IHc|n body IH|n body IH|n f|k cb|cb|n cb];
    cbn [exec well_scoped opens]; intros b r Hcb Hb Hw.
  - split; [reflexivity | exact Hb].
  - apply andb_true_iff in Hw as [Hwa Hwc].
    destruct (IHa b r Hcb Hb Hwa) as (Hra & Hoa).
    pose proof (exec_keeps_cursor_bound a r Hcb) as Hcb'.
    unfold bind. unfold returns in Hra.
    destruct (exec a r) as [[e|[]] r1]; cbn in *; [discriminate|].
    exact (IHc (opens b a) r1 Hcb' Hoa Hwc).
  - apply IH; [reflexivity | discriminate | exact Hw].
  - apply IH; [| |exact Hw].
    + apply suite_open_cursor_bound. unfold suite_open. cbn.
      apply has_cases_set. discriminate.
    + intros _. unfold suite_open. cbn. apply has_cases_set. discriminate.
  - subst b. specialize (Hb eq_refl).
    destruct (testCase_open n f r Hb) as (Hr & Ho). split; [exact Hr | now intros _].
  - split; [now apply register_hook_returns|].
    intros Hbt. apply register_hook_keeps_suite_open. now apply Hb.
  - split; [reflexivity | exact Hb].
  - split; [reflexivity | exact Hb].
Qed.

(** A registration program in which every [testCase] call comes after a
    [testSuite] call, with no [testPlan] call in between, never throws,
    from the new runner or from any state a registration program has left:
    registration can only fail on a case that is outside every suite. *)
Theorem well_scoped_program_returns (s : Script) (r : RhumRunner) :
  cursor_bound r = true ->
  well_scoped false s = true ->
  returns (exec s r) = true.
Proof.
  intros Hcb Hw. apply (exec_well_scoped s false r Hcb); [discriminate | exact Hw].
Qed.

Lemma well_scoped_program_returns_witness :
  returns (exec (Seq (CallTestPlan "P"
                        (Seq (CallHook BeforeAll (FnRef 1))
                        (Seq (CallTestSuite "A" (CallTestCase "a" (FnRef 2)))
                        (Seq (CallTestCase "late" (FnRef 3))
                             (CallHook AfterAll (FnRef 4))))))
                     (CallTestPlan "" (CallTestSuite "" (CallTestCase "b" (FnRef 5)))))
             new_RhumRunner) = true.
Proof.
  apply well_scoped_program_returns; reflexivity.
Defined.

(** ** Order of registration *)

Lemma exec_cases_script (l : list (string * Fn)) :
  forall r s cs,
    get_suite (passed_in_test_suite r) (suites (plan r)) = Some s ->
    cases s = Some cs ->
    exists r' s' new,
      exec (cases_script l) r = (inr tt, r')
      /\ passed_in_test_suite r' = passed_in_test_suite r
      /\ get_suite (passed_in_test_suite r) (suites (plan r')) = Some s'
      /\ cases s' = Some (cs ++ new)%list
      /\ map name new = map fst l
      /\ map testFn new = map snd l
      /\ (forall k, case_hook k s' = case_hook k s).
Proof.
  induction l as [|[n f] l IH]; intros r s cs Hg Hc.
  - exists r, s, []. cbn. rewrite app_nil_r. repeat split; assumption.
  - cbn [cases_script exec]. unfold bind.
    rewrite (testCase_present n f r s cs Hg Hc). cbv beta iota zeta.
    match goal with
    | |- context [exec (cases_script l) ?r1] => set (r1' := r1)
    end.
    match goal with
    | _ := with_plan (with_suites (set_suite _ ?v _) _) _ |- _ => set (s1 := v) in *
    end.
    assert (Hg1 : get_suite (passed_in_test_suite r1') (suites (plan r1')) = Some s1).
    { subst r1'. cbn. apply get_suite_set_same. }
    destruct (IH r1' s1 _ Hg1 eq_refl)
      as (r' & s' & new & Hex & Hcur & Hg' & Hc' & Hn & Hf & Hk).
    exists r', s'. eexists. split; [exact Hex|].
    split; [exact Hcur|]. split; [exact Hg'|].
    split; [rewrite Hc', <- app_assoc; reflexivity|].
    cbn. rewrite Hn, Hf. repeat split.
    intros k. rewrite Hk. subst s1. apply case_hook_set_cases.
Qed.

(** [testSuite] over a body of [testCase] calls returns normally, in any
    state, and leaves under its name a record whose cases are exactly the
    registered ones, names and test functions in the order of the calls,
    with all four hooks null. *)
Theorem suite_cases_in_call_order (n : string) (l : list (string * Fn))
    (r : RhumRunner) :
  exists r' s' cs,
    exec (CallTestSuite n (cases_script l)) r = (inr tt, r')
    /\ get_suite n (suites (plan r')) = Some s'
    /\ cases s' = Some cs
    /\ map name cs = map fst l
    /\ map testFn cs = map snd l
    /\ (forall k, case_hook k s' = None).
Proof.
  cbn [exec].
  set (r0 := with_plan
               (with_suites (set_suite n fresh_suite (suites (plan r))) (plan r))
               (with_passed_in_test_suite n r)).
  change (testSuite n (exec (cases_script l)) r) with (exec (cases_script l) r0).
  assert (Hg0 : get_suite (passed_in_test_suite r0) (suites (plan r0)) = Some fresh_suite).
  { subst r0. cbn. apply get_suite_set_same. }
  destruct (exec_cases_script l r0 fresh_suite [] Hg0 eq_refl)
    as (r' & s' & new & Hex & _ & Hg' & Hc' & Hn & Hf & Hk).
  exists r', s', new. repeat split; try assumption.
  intros k. rewrite Hk. now destruct k.
Qed.

Lemma get_suite_None (key : string) (o : list (string * Suite)) :
  get_suite key o = None <-> ~ In key (map fst o).
Proof.
  induction o as [|[k w] rest IH]; cbn; [tauto|].
  destruct (String.eqb_spec k key) as [->|Hk].
  - split; [discriminate | tauto].
  - rewrite IH. tauto.
Qed.








(** ** A plan with an empty name *)

(** [testCase], whether it returns or throws, leaves the cursor's scopes,
    every hook slot and the order of the suites as they were. *)
Lemma testCase_keeps_hooks (n : string) (f : Fn) (r : RhumRunner) :
  passed_in_test_plan (snd (testCase n f r)) = passed_in_test_plan r
  /\ (forall k, suite_hook k (plan (snd (testCase n f r))) = suite_hook k (plan r))
  /\ (forall k key, case_hook_of k key (snd (testCase n f r)) = case_hook_of k key r)
  /\ map fst (suites (plan (snd (testCase n f r)))) = map fst (suites (plan r)).
Proof.
  destruct (get_suite (passed_in_test_suite r) (suites (plan r))) as [s|] eqn:Hg.
  - destruct (cases s) as [cs|] eqn:Hc.
    + rewrite (testCase_present n f r s cs Hg Hc). cbn.
      split; [reflexivity|]. split; [now intros []|]. split.
      * intros k key. unfold case_hook_of. cbn.
        destruct (String.eqb_spec (passed_in_test_suite r) key) as [<-|Hne].
        -- rewrite get_suite_set_same, Hg. apply case_hook_set_cases.
        -- now rewrite get_suite_set_other.
      * apply set_suite_keeps_keys. congruence.
    + unfold testCase, bind, get, deref_suite, throw. rewrite Hg, Hc.
      repeat split.
  - rewrite testCase_missing by assumption. repeat split.
Qed.

Lemma exec_without_plan_name (s : Script) :
  no_plan_call s = true ->
  forall r,
    passed_in_test_plan r = "" ->
    passed_in_test_plan (snd (exec s r)) = ""
    /\ (forall k, suite_hook k (plan (snd (exec s r))) = suite_hook k (plan r))
    /\ (forall k key f,
          case_hook_of k key (snd (exec s r)) = Some f ->
          case_hook_of k key r = Some f).
Proof.
  induction s as [|a IHa c IHc|n body IH|n body IH|n f|k cb|cb|n cb];
    cbn [no_plan_call exec]; intros Hn r Hp; try discriminate.
  - repeat split; auto.
  - apply andb_true_iff in Hn as [Ha Hc].
    destruct (IHa Ha r Hp) as (Hp1 & Hs1 & Hc1).
    unfold bind.
    destruct (exec a r) as [[e|[]] r1]; cbn in *.
    + repeat split; auto.
    + destruct (IHc Hc r1 Hp1) as (Hp2 & Hs2 & Hc2).
      split; [exact Hp2|]. split.
      * intros k. now rewrite Hs2.
      * intros k key f Hf. apply Hc1. now apply Hc2.
  - set (r0 := with_plan
                 (with_suites (set_suite n fresh_suite (suites (plan r))) (plan r))
                 (with_passed_in_test_suite n r)).
    change (testSuite n (exec body) r) with (exec body r0).
    destruct (IH Hn r0 Hp) as (Hp1 & Hs1 & Hc1).
    split; [exact Hp1|]. split.
    + intros k. rewrite Hs1. now destruct k.
    + intros k key f Hf. apply Hc1 in Hf. revert Hf.
      unfold case_hook_of. subst r0. cbn.
      destruct (String.eqb_spec n key) as [<-|Hne].
      * rewrite get_suite_set_same. now destruct k.
      * now rewrite get_suite_set_other.
  - destruct (testCase_keeps_hooks n f r) as (Hp1 & Hs1 & Hc1 & _).
    split; [congruence|]. split; [exact Hs1|].
    intros k key f0. now rewrite Hc1.
  - rewrite register_hook_no_plan by assumption. repeat split; auto.
  - repeat split; auto.
  - repeat split; auto.
Qed.

(** Under a plan registered with the empty name every hook registration
    is dropped, inside its suites as well: when the plan body opens no
    other plan, the plan-level slots are left as they were and no suite
    record holds a hook that it did not hold before the call. *)
Theorem hooks_dropped_under_empty_plan_name (body : Script) (r : RhumRunner) :
  no_plan_call body = true ->
  let r' := snd (exec (CallTestPlan "" body) r) in
  (forall k, suite_hook k (plan r') = suite_hook k (plan r))
  /\ (forall k key f, case_hook_of k key r' = Some f -> case_hook_of k key r = Some f).
Proof.
  intros Hn r'. subst r'. cbn [exec].
  change (testPlan "" (exec body) r)
    with (exec body (with_passed_in_test_plan "" (with_passed_in_test_suite "" r))).
  destruct (exec_without_plan_name body Hn
              (with_passed_in_test_plan "" (with_passed_in_test_suite "" r)) eq_refl)
    as (_ & Hs & Hc).
  split; [exact Hs | exact Hc].
Qed.

Lemma hooks_dropped_under_empty_plan_name_witness :
  let body := Seq (CallHook BeforeAll (FnRef 1))
                  (CallTestSuite "S" (Seq (CallHook BeforeEach (FnRef 2))
                                          (CallTestCase "c" (FnRef 3)))) in
  let r' := snd (exec (CallTestPlan "" body) new_RhumRunner) in
  suite_hook BeforeAll (plan r') = None
  /\ case_hook_of BeforeEach "S" r' = None
  /\ has_cases "S" (suites (plan r')) = true.
Proof.
  intros body r'.
  destruct (hooks_dropped_under_empty_plan_name body new_RhumRunner eq_refl)
    as (Hs & Hc).
  split; [exact (Hs BeforeAll)|]. split; [|reflexivity].
  destruct (case_hook_of BeforeEach "S" r') as [f|] eqn:E; [|reflexivity].
  apply (Hc BeforeEach "S" f) in E. discriminate E.
Defined.

(** ** The document only grows *)

Lemma register_hook_grows (k : HookKind) (cb : Fn) (r : RhumRunner) :
  map fst (suites (plan (snd (register_hook k cb r)))) = map fst (suites (plan r))
  /\ (forall k', suite_hook k' (plan r) <> None ->
        suite_hook k' (plan (snd (register_hook k cb r))) <> None).
Proof.
  destruct (String.eqb_spec (passed_in_test_plan r) "") as [Hp|Hp].
  { rewrite register_hook_no_plan by assumption. split; auto. }
  destruct (String.eqb_spec (passed_in_test_suite r) "") as [Hs|Hs].
  { rewrite register_hook_plan_scope by assumption. cbn. split; [reflexivity|].
    intros k' H. destruct k, k'; cbn in *; congruence. }
  destruct (get_suite (passed_in_test_suite r) (suites (plan r))) as [s|] eqn:Hg.
  - rewrite (register_hook_suite_scope k cb r s Hp Hs Hg). cbn. split.
    + apply set_suite_keeps_keys. congruence.
    + intros k' H. now destruct k'.
  - rewrite register_hook_unfold.
    apply truthy_true in Hp. apply truthy_true in Hs. rewrite Hp, Hs. cbn [andb].
    rewrite assign_case_hook_missing by assumption. split; auto.
Qed.

(** No registration program, whether it returns or throws, removes or
    moves a binding of the [suites] object or sets a plan-level hook slot
    back to null. *)
Lemma exec_bindings_grow (s : Script) :
  forall r,
    (exists added,
        map fst (suites (plan (snd (exec s r))))
        = (map fst (suites (plan r)) ++ added)%list)
    /\ (forall k, suite_hook k (plan r) <> None ->
          suite_hook k (plan (snd (exec s r))) <> None).
Proof.
  induction s as [|a IHa c IHc|n body IH|n body IH|n f|k cb|cb|n cb];
    cbn [exec]; intros r.
  - split; [exists []; now rewrite app_nil_r | auto].
  - destruct (IHa r) as ((ad1 & Hk1) & Hh1). unfold bind.
    destruct (exec a r) as [[e|[]] r1]; cbn in *.
    + split; [now exists ad1 | exact Hh1].
    + destruct (IHc r1) as ((ad2 & Hk2) & Hh2). split.
      * exists (ad1 ++ ad2)%list. now rewrite Hk2, Hk1, app_assoc.
      * intros k H. apply Hh2. now apply Hh1.
  - change (testPlan n (exec body) r)
      with (exec body (with_passed_in_test_plan n (with_passed_in_test_suite "" r))).
    exact (IH (with_passed_in_test_plan n (with_passed_in_test_suite "" r))).
  - set (r0 := with_plan
                 (with_suites (set_suite n fresh_suite (suites (plan r))) (plan r))
                 (with_passed_in_test_suite n r)).
    change (testSuite n (exec body) r) with (exec body r0).
    destruct (IH r0) as ((ad & Hk) & Hh). split.
    + subst r0. cbn in Hk. rewrite set_suite_keys in Hk.
      eexists. rewrite Hk, <- app_assoc. reflexivity.
    + intros k H. apply Hh. subst r0. now destruct k.
  - destruct (testCase_keeps_hooks n f r) as (_ & Hs & _ & Hk). split.
    + exists []. now rewrite Hk, app_nil_r.
    + intros k. now rewrite Hs.
  - destruct (register_hook_grows k cb r) as (Hk & Hh). split.
    + exists []. now rewrite Hk, app_nil_r.
    + exact Hh.
  - split; [exists []; now rewrite app_nil_r | auto].
  - split; [exists []; now rewrite app_nil_r | auto].
Qed.

Lemma In_insert_index (n k : string) (l : list string) :
  In n (insert_index k l) <-> n = k \/ In n l.
Proof.
  induction l as [|h t IH]; cbn; [intuition congruence|].
  destruct (N.leb (index_value k) (index_value h)); cbn;
    [intuition congruence|].
  rewrite IH. intuition congruence.
Qed.

Lemma In_sort_indices (n : string) (l : list string) :
  In n (sort_indices l) <-> In n l.
Proof.
  induction l as [|h t IH]; cbn; [tauto|].
  rewrite In_insert_index, IH. intuition congruence.
Qed.

(** The object enumerates every key it was assigned but [__proto__]. *)
Lemma In_enumerate (n : string) (ks : list string) :
  In n (enumerate ks) <-> In n ks /\ n <> "__proto__".
Proof.
  unfold enumerate. rewrite in_app_iff, In_sort_indices, !filter_In.
  unfold plain_name.
  destruct (is_array_index n) eqn:E; cbn.
  - destruct (String.eqb_spec n "__proto__") as [->|Hne]; [discriminate E|].
    intuition congruence.
  - destruct (String.eqb_spec n "__proto__") as [->|Hne]; cbn;
      intuition congruence.
Qed.

(** No registration program, whether it returns or throws, takes a suite
    out of the document or sets a plan-level hook slot back to null: a
    name the document enumerated before the program is enumerated after
    it, a name that had a record still has one, the names that are not
    array indices keep their places at the front of the names of that kind,
    and a slot that held a callback holds one still. *)
Theorem document_only_grows (s : Script) (r : RhumRunner) :
  (forall n, In n (own_keys (suites (plan r))) ->
             In n (own_keys (suites (plan (snd (exec s r))))))
  /\ (forall n, get_suite n (suites (plan r)) <> None ->
                get_suite n (suites (plan (snd (exec s r)))) <> None)
  /\ (exists added,
        filter plain_name (map fst (suites (plan (snd (exec s r)))))
        = (filter plain_name (map fst (suites (plan r))) ++ added)%list)
  /\ (forall k, suite_hook k (plan r) <> None ->
        suite_hook k (plan (snd (exec s r))) <> None).
Proof.
  destruct (exec_bindings_grow s r) as ((added & Hk) & Hh).
  split; [|split; [|split]].
  - intros n. unfold own_keys. rewrite !In_enumerate, Hk, in_app_iff. tauto.
  - intros n. rewrite !get_suite_None, Hk, in_app_iff. tauto.
  - exists (filter plain_name added). now rewrite Hk, filter_app.
  - exact Hh.
Qed.

Lemma document_only_grows_witness :
  let r := snd (exec (CallTestPlan "P"
                        (Seq (CallHook AfterAll (FnRef 1)) (CallTestSuite "A" Done)))
                  new_RhumRunner) in
  let s := Seq (CallTestPlan "Q"
                  (Seq (CallTestSuite "10" Done)
                  (Seq (CallTestSuite "2" Done) (CallTestSuite "A" Done))))
               (CallTestPlan "R" (CallTestCase "stray" (FnRef 2))) in
  returns (exec s r) = false
  /\ own_keys (suites (plan r)) = ["A"]
  /\ own_keys (suites (plan (snd (exec s r)))) = ["2"; "10"; "A"]
  /\ In "A" (own_keys (suites (plan (snd (exec s r)))))
  /\ suite_hook AfterAll (plan (snd (exec s r))) <> None.
Proof.
  intros r s.
  destruct (document_only_grows s r) as (Hin & _ & _ & Hh).
  split; [reflexivity|]. split; [reflexivity|]. split; [reflexivity|].
  split; [apply Hin; now left | apply Hh; discriminate].
Defined.

(** ** Display names within one suite *)

Lemma exec_cases_script_names (l : list (string * Fn)) :
  forall r s cs,
    get_suite (passed_in_test_suite r) (suites (plan r)) = Some s ->
    cases s = Some cs ->
    layout r = CaseOnly ->
    exists r' s' new,
      exec (cases_script l) r = (inr tt, r')
      /\ get_suite (passed_in_test_suite r) (suites (plan r')) = Some s'
      /\ cases s' = Some (cs ++ new)%list
      /\ map new_name new
         = map (fun nf => render CaseOnly (passed_in_test_plan r)
                            (passed_in_test_suite r) (fst nf)) l.
Proof.
  induction l as [|[n f] l IH]; intros r s cs Hg Hc Hl.
  - exists r, s, []. cbn. rewrite app_nil_r. repeat split; assumption.
  - cbn [cases_script exec]. unfold bind.
    rewrite (testCase_present n f r s cs Hg Hc). cbv beta iota zeta.
    match goal with
    | |- context [exec (cases_script l) ?r1] => set (r1' := r1)
    end.
    match goal with
    | _ := with_plan (with_suites (set_suite _ ?v _) _) _ |- _ => set (s1 := v) in *
    end.
    assert (Hg1 : get_suite (passed_in_test_suite r1') (suites (plan r1')) = Some s1).
    { subst r1'. cbn. apply get_suite_set_same. }
    assert (Hl1 : layout r1' = CaseOnly).
    { subst r1'. unfold layout. cbn. now rewrite !String.eqb_refl. }
    destruct (IH r1' s1 _ Hg1 eq_refl Hl1) as (r' & s' & new & Hex & Hg' & Hc' & Hn).
    exists r', s'. eexists. split; [exact Hex|]. split; [exact Hg'|].
    split; [rewrite Hc', <- app_assoc; reflexivity|].
    cbn. rewrite Hn, Hl. reflexivity.
Qed.

(** Within one [testSuite] body of [testCase] calls only the first case
    can carry a header: its display name has the layout the cursor calls
    for when the suite is entered, and every later case of the body has the
    bare case line. *)
Theorem suite_headers_on_first_case_only (n n1 : string) (f1 : Fn)
    (l : list (string * Fn)) (r : RhumRunner) :
  exists r' s' c cs,
    exec (CallTestSuite n (cases_script ((n1, f1) :: l))) r = (inr tt, r')
    /\ get_suite n (suites (plan r')) = Some s'
    /\ cases s' = Some (c :: cs)
    /\ new_name c
       = render (layout (with_passed_in_test_suite n r))
           (passed_in_test_plan r) n n1
    /\ map new_name cs
       = map (fun nf => render CaseOnly (passed_in_test_plan r) n (fst nf)) l.
Proof.
  set (r0 := with_plan
               (with_suites (set_suite n fresh_suite (suites (plan r))) (plan r))
               (with_passed_in_test_suite n r)).
  assert (Hrun : exec (CallTestSuite n (cases_script ((n1, f1) :: l))) r
                 = (testCase n1 f1 ;;; exec (cases_script l)) r0) by reflexivity.
  rewrite Hrun. clear Hrun.
  assert (Hg0 : get_suite (passed_in_test_suite r0) (suites (plan r0)) = Some fresh_suite).
  { subst r0. cbn. apply get_suite_set_same. }
  unfold bind. rewrite (testCase_present n1 f1 r0 fresh_suite [] Hg0 eq_refl).
  cbv beta iota zeta.
  match goal with
  | |- context [exec (cases_script l) ?r1] => set (r1' := r1)
  end.
  match goal with
  | _ := with_plan (with_suites (set_suite _ ?v _) _) _ |- _ => set (s1 := v) in *
  end.
  assert (Hg1 : get_suite (passed_in_test_suite r1') (suites (plan r1')) = Some s1).
  { subst r1'. cbn. apply get_suite_set_same. }
  assert (Hl1 : layout r1' = CaseOnly).
  { subst r1'. unfold layout. cbn. now rewrite !String.eqb_refl. }
  destruct (exec_cases_script_names l r1' s1 _ Hg1 eq_refl Hl1)
    as (r' & s' & new & Hex & Hg' & Hc' & Hn).
  exists r', s'. eexists. exists new.
  split; [exact Hex|]. split; [exact Hg'|]. split; [exact Hc'|].
  split; [reflexivity | exact Hn].
Qed.
